(** * mergekit/architecture.py: tensor-name catalog and architecture dispatch

    A shallow embedding of [mergekit.architecture]: the [WeightInfo] value,
    the [ArchitectureInfo] interface with its [all_weights] template method,
    the table-driven [StaticTensorNames], the two computed layouts
    ([MixtralTensorNames], [PhiTensorNames]), the catalog of descriptors and
    [get_architecture_info].

    Python exceptions are values of [exn] carried by [result]; a configuration
    object is a record whose integer attributes live in a finite map read by
    [getattr]. *)

From Stdlib Require Import ZArith Ascii DecimalString DecimalZ DecimalPos Lia.
From stdpp Require Import gmap strings list.

Local Open Scope Z_scope.

(** ** Exceptions and results *)

Inductive exn : Type :=
  | RuntimeError (msg : string)
  | TypeError
  | AttributeError (attr : string)
  | ValueError
  | KeyError (key : string)
  | IndexError
  | NotModelled.

Inductive result (A : Type) : Type :=
  | Ok (a : A)
  | Raise (e : exn).
Arguments Ok {A} a.
Arguments Raise {A} e.

#[global] Instance result_ret : MRet result := fun A a => Ok a.

#[global] Instance result_bind : MBind result := fun A B k r =>
  match r with
  | Ok a => k a
  | Raise e => Raise e
  end.

(** ** Python built-ins used by the module *)

(** [str(n)] for an [int]: decimal digits, a leading minus sign when
    negative. *)
Definition str (n : Z) : string := NilZero.string_of_int (Z.to_int n).

(** [range(n)]: the integers [0 .. n-1], empty when [n <= 0]. *)
Definition range (n : Z) : list Z := Z.of_nat <$> seq 0 (Z.to_nat n).

(** [sub in s] on strings. *)
Fixpoint contains (sub s : string) : bool :=
  String.prefix sub s ||
  match s with
  | EmptyString => false
  | String _ s' => contains sub s'
  end.

(** [x in xs] for a list of strings. *)
Definition str_in (x : string) (xs : list string) : bool :=
  existsb (String.eqb x) xs.

(** [s.split(".")]. *)
Fixpoint split_dot_go (cur : string) (s : string) : list string :=
  match s with
  | EmptyString => [cur]
  | String c s' =>
      if Ascii.eqb c "."%char then cur :: split_dot_go EmptyString s'
      else split_dot_go (cur +:+ String c EmptyString) s'
  end.

Definition split_dot (s : string) : list string := split_dot_go EmptyString s.

(** [template.format(idx=index)] with an [int] argument.

    The scanner walks the template left to right as [str.format] does:
    [{{] and [}}] are escaped braces, [{idx}] is replaced by [str(index)],
    a brace that is neither raises [ValueError], a field with another
    name raises [KeyError] (a name) or [IndexError] (empty or positional;
    [ValueError] once the number has too many digits to be an index).
    Fields with a conversion, a format specification or an attribute or item
    access ([!], [:], [.], [[]) are outside this model and end in
    [NotModelled]; so does an opening brace met after [!], [:] or [[],
    where [str.format] allows nested fields. *)
Inductive scan : Type :=
  | Text
  | Field (acc : string).

Definition is_digit (c : ascii) : bool :=
  let n := nat_of_ascii c in (48 <=? n)%nat && (n <=? 57)%nat.

Fixpoint all_chars (p : ascii -> bool) (s : string) : bool :=
  match s with
  | EmptyString => true
  | String c s' => p c && all_chars p s'
  end.

Definition exotic_field_char (c : ascii) : bool :=
  (Ascii.eqb c "!" || Ascii.eqb c ":" || Ascii.eqb c "." || Ascii.eqb c "[")%char.

(** The characters after which a field is no longer a plain name: a
    conversion, a format specification, an item access. *)
Definition leaves_field_name (c : ascii) : bool :=
  (Ascii.eqb c "!" || Ascii.eqb c ":" || Ascii.eqb c "[")%char.

(** The number an all-digit field denotes. *)
Fixpoint digits_value (acc : Z) (s : string) : Z :=
  match s with
  | EmptyString => acc
  | String c s' => digits_value (10 * acc + (Z.of_nat (nat_of_ascii c) - 48)) s'
  end.

(** A positional field finds no positional argument: [IndexError]. A number
    of twenty digits or more overflows the index type on every platform and
    is refused with [ValueError]; between [2^31] and that, the answer depends
    on the platform's word size. *)
Definition resolve_position (field : string) : exn :=
  let n := digits_value 0 field in
  if n <? 2 ^ 31 then IndexError
  else if 10 ^ 19 <=? n then ValueError
  else NotModelled.

Definition resolve_field (field : string) (index : Z) : result string :=
  if String.eqb field "idx" then Ok (str index)
  else if negb (all_chars (fun c => negb (exotic_field_char c)) field)
       then Raise NotModelled
  else if all_chars is_digit field then Raise (resolve_position field)
  else Raise (KeyError field).

Fixpoint format_scan (st : scan) (s : string) (index : Z) : result string :=
  match s with
  | EmptyString =>
      match st with
      | Text => Ok EmptyString
      | Field _ => Raise ValueError
      end
  | String c rest =>
      match st with
      | Text =>
          if Ascii.eqb c "{"%char then
            match rest with
            | String c' rest' =>
                if Ascii.eqb c' "{"%char then
                  out ← format_scan Text rest' index; Ok (String c out)
                else format_scan (Field EmptyString) rest index
            | EmptyString => Raise ValueError
            end
          else if Ascii.eqb c "}"%char then
            match rest with
            | String c' rest' =>
                if Ascii.eqb c' "}"%char then
                  out ← format_scan Text rest' index; Ok (String c out)
                else Raise ValueError
            | EmptyString => Raise ValueError
            end
          else out ← format_scan Text rest index; Ok (String c out)
      | Field acc =>
          if Ascii.eqb c "}"%char then
            v ← resolve_field acc index;
            out ← format_scan Text rest index; Ok (v +:+ out)
          else if Ascii.eqb c "{"%char then
            if all_chars (fun c => negb (leaves_field_name c)) acc
            then Raise ValueError
            else Raise NotModelled
          else format_scan (Field (acc +:+ String c EmptyString)) rest index
      end
  end.

Definition format_idx (template : string) (index : Z) : result string :=
  format_scan Text template index.

(** ** WeightInfo *)

Record WeightInfo : Type := mkWeightInfo {
  name : string;
  is_embed : bool;
  input_space : option string;
  output_space : option string;
  optional : bool;
  aliases : option (list string);
}.

(** [WeightInfo(name=..., is_embed=...)]: the other fields take their
    declared defaults. *)
Definition weight_info (n : string) (e : bool) : WeightInfo :=
  {| name := n; is_embed := e; input_space := None; output_space := None;
     optional := false; aliases := None |}.

(** ** PretrainedConfig

    The attributes the module reads: the list of declared architectures, the
    model-type tag, and integer attributes fetched by name. *)
Record PretrainedConfig : Type := {
  architectures : list string;
  model_type : string;
  int_attrs : gmap string Z;
}.

Definition getattr (config : PretrainedConfig) (key : string) : result Z :=
  match int_attrs config !! key with
  | Some v => Ok v
  | None => Raise (AttributeError key)
  end.

(** ** ArchitectureInfo

    The abstract base class: five methods every descriptor supplies, and the
    template methods [num_layers] and [all_weights] written once over them.
    [layer_weights] is declared [Optional[List[WeightInfo]]]; [None] is the
    "no such layer" answer. *)
Class ArchitectureInfo (A : Type) : Type := {
  pre_weights : A -> list WeightInfo;
  post_weights : A -> list WeightInfo;
  layer_weights : A -> Z -> result (option (list WeightInfo));
  sliceable : A -> bool;
  num_layers_config_key : A -> string;
}.

(** The base-class body of [num_layers_config_key]. *)
Definition default_num_layers_config_key : string := "num_hidden_layers".

Definition num_layers `{ArchitectureInfo A} (self : A)
    (config : PretrainedConfig) : result Z :=
  getattr config (num_layers_config_key self).

(** The [for layer_idx in range(num_layers)] loop of [all_weights]: [res] is
    the list being extended; extending with [None] is a [TypeError]. *)
Fixpoint extend_layers (lw : Z -> result (option (list WeightInfo)))
    (idxs : list Z) (res : list WeightInfo) : result (list WeightInfo) :=
  match idxs with
  | [] => Ok res
  | layer_idx :: rest =>
      match lw layer_idx with
      | Ok (Some ws) => extend_layers lw rest (res ++ ws)
      | Ok None => Raise TypeError
      | Raise e => Raise e
      end
  end.

Definition all_weights `{ArchitectureInfo A} (self : A)
    (config : PretrainedConfig) : result (list WeightInfo) :=
  n ← num_layers self config;
  res ← extend_layers (layer_weights self) (range n) (pre_weights self);
  Ok (res ++ post_weights self).

(** ** StaticTensorNames *)

Module StaticTensorNames.

Record t : Type := {
  name : string;
  pre_weight_names : list string;
  post_weight_names : list string;
  embed_weight_names : list string;
  layer_prefix_format : string;
  layer_weight_suffixes : list string;
  num_layers_key : option string;
}.

Definition _make_weightinfo (self : t) (n : string) : WeightInfo :=
  weight_info n (str_in n (embed_weight_names self)).

Definition pre_weights (self : t) : list WeightInfo :=
  _make_weightinfo self <$> pre_weight_names self.

Definition post_weights (self : t) : list WeightInfo :=
  _make_weightinfo self <$> post_weight_names self.

(** The loop over [layer_weight_suffixes]; the template is formatted anew
    for every suffix, so an empty suffix list never formats it. *)
Fixpoint layer_weights_loop (self : t) (index : Z) (suffixes : list string)
    (res : list WeightInfo) : result (list WeightInfo) :=
  match suffixes with
  | [] => Ok res
  | suffix :: rest =>
      prefix ← format_idx (layer_prefix_format self) index;
      layer_weights_loop self index rest
        (res ++ [_make_weightinfo self (prefix +:+ "." +:+ suffix)])
  end.

Definition layer_weights (self : t) (index : Z)
    : result (option (list WeightInfo)) :=
  res ← layer_weights_loop self index (layer_weight_suffixes self) [];
  Ok (Some res).

(** [if self.num_layers_key:] is false for [None] and for the empty
    string. *)
Definition num_layers_config_key (self : t) : string :=
  match num_layers_key self with
  | Some key => if String.eqb key "" then default_num_layers_config_key else key
  | None => default_num_layers_config_key
  end.

Definition sliceable (self : t) : bool := true.

End StaticTensorNames.

#[global] Instance StaticTensorNames_arch
    : ArchitectureInfo StaticTensorNames.t := {
  pre_weights := StaticTensorNames.pre_weights;
  post_weights := StaticTensorNames.post_weights;
  layer_weights := StaticTensorNames.layer_weights;
  sliceable := StaticTensorNames.sliceable;
  num_layers_config_key := StaticTensorNames.num_layers_config_key;
}.

Definition LLAMA_INFO : StaticTensorNames.t := {|
  StaticTensorNames.name := "LlamaForCausalLM";
  StaticTensorNames.pre_weight_names := ["model.embed_tokens.weight"];
  StaticTensorNames.post_weight_names := ["model.norm.weight"; "lm_head.weight"];
  StaticTensorNames.embed_weight_names :=
    ["model.embed_tokens.weight"; "lm_head.weight"];
  StaticTensorNames.layer_prefix_format := "model.layers.{idx}";
  StaticTensorNames.layer_weight_suffixes := [
    "input_layernorm.weight";
    "mlp.up_proj.weight";
    "mlp.down_proj.weight";
    "mlp.gate_proj.weight";
    "post_attention_layernorm.weight";
    "self_attn.q_proj.weight";
    "self_attn.k_proj.weight";
    "self_attn.v_proj.weight";
    "self_attn.o_proj.weight"
  ];
  StaticTensorNames.num_layers_key := None;
|}.

(** [StaticTensorNames(name=..., **LLAMA_INFO.model_dump(exclude=["name"]))] *)
Definition MISTRAL_INFO : StaticTensorNames.t := {|
  StaticTensorNames.name := "MistralForCausalLM";
  StaticTensorNames.pre_weight_names := StaticTensorNames.pre_weight_names LLAMA_INFO;
  StaticTensorNames.post_weight_names := StaticTensorNames.post_weight_names LLAMA_INFO;
  StaticTensorNames.embed_weight_names := StaticTensorNames.embed_weight_names LLAMA_INFO;
  StaticTensorNames.layer_prefix_format := StaticTensorNames.layer_prefix_format LLAMA_INFO;
  StaticTensorNames.layer_weight_suffixes := StaticTensorNames.layer_weight_suffixes LLAMA_INFO;
  StaticTensorNames.num_layers_key := StaticTensorNames.num_layers_key LLAMA_INFO;
|}.

(** ** MixtralTensorNames *)

Module MixtralTensorNames.

Definition ARCHITECTURE_NAME : string := "MixtralForCausalLM".

Record t : Type := { num_local_experts : Z }.

Definition from_config (config : PretrainedConfig) : result t :=
  n ← getattr config "num_local_experts";
  Ok {| num_local_experts := n |}.

Definition pre_weights (self : t) : list WeightInfo :=
  StaticTensorNames.pre_weights MISTRAL_INFO.

Definition post_weights (self : t) : list WeightInfo :=
  StaticTensorNames.post_weights MISTRAL_INFO.

Definition num_layers_config_key (self : t) : string :=
  StaticTensorNames.num_layers_config_key MISTRAL_INFO.

(** The names appended for one expert: the inner [for param in ...] loop. *)
Definition expert_names (prefix : string) (expert_idx : Z) : list string :=
  (fun param =>
     prefix +:+ ".block_sparse_moe.experts." +:+ str expert_idx +:+ "."
       +:+ param +:+ ".weight") <$> ["w1"; "w2"; "w3"].

Definition layer_weights (self : t) (index : Z)
    : result (option (list WeightInfo)) :=
  let num_experts := num_local_experts self in
  prefix ← format_idx (StaticTensorNames.layer_prefix_format MISTRAL_INFO) index;
  let tensor_names :=
    flat_map (expert_names prefix) (range num_experts)
      ++ [prefix +:+ ".block_sparse_moe.gate.weight"] in
  Ok (Some ((fun n =>
               weight_info n
                 (str_in n (StaticTensorNames.embed_weight_names MISTRAL_INFO)))
              <$> tensor_names)).

Definition sliceable (self : t) : bool := true.

End MixtralTensorNames.

#[global] Instance MixtralTensorNames_arch
    : ArchitectureInfo MixtralTensorNames.t := {
  pre_weights := MixtralTensorNames.pre_weights;
  post_weights := MixtralTensorNames.post_weights;
  layer_weights := MixtralTensorNames.layer_weights;
  sliceable := MixtralTensorNames.sliceable;
  num_layers_config_key := MixtralTensorNames.num_layers_config_key;
}.

(** ** The remaining static descriptors *)

Definition STABLELM_INFO : StaticTensorNames.t := {|
  StaticTensorNames.name := "StableLMEpochForCausalLM";
  StaticTensorNames.post_weight_names :=
    StaticTensorNames.post_weight_names LLAMA_INFO ++ ["model.norm.bias"];
  StaticTensorNames.layer_weight_suffixes :=
    StaticTensorNames.layer_weight_suffixes LLAMA_INFO
      ++ ["input_layernorm.bias"; "post_attention_layernorm.bias"];
  StaticTensorNames.pre_weight_names := StaticTensorNames.pre_weight_names LLAMA_INFO;
  StaticTensorNames.embed_weight_names := StaticTensorNames.embed_weight_names LLAMA_INFO;
  StaticTensorNames.layer_prefix_format := StaticTensorNames.layer_prefix_format LLAMA_INFO;
  StaticTensorNames.num_layers_key := StaticTensorNames.num_layers_key LLAMA_INFO;
|}.

Definition GPT_NEOX_INFO : StaticTensorNames.t := {|
  StaticTensorNames.name := "GPTNeoXForCausalLM";
  StaticTensorNames.pre_weight_names := ["gpt_neox.embed_in.weight"];
  StaticTensorNames.post_weight_names := [
    "gpt_neox.final_layer_norm.bias";
    "gpt_neox.final_layer_norm.weight";
    "embed_out.weight"
  ];
  StaticTensorNames.embed_weight_names :=
    ["gpt_neox.embed_in.weight"; "embed_out.weight"];
  StaticTensorNames.layer_prefix_format := "gpt_neox.layers.{idx}";
  StaticTensorNames.layer_weight_suffixes :=
    concat ((fun prefix => [prefix +:+ ".weight"; prefix +:+ ".bias"]) <$> [
      "attention.dense";
      "attention.query_key_value";
      "input_layernorm";
      "mlp.dense_4h_to_h";
      "mlp.dense_h_to_4h";
      "post_attention_layernorm"
    ])
    ++ ["attention.bias"; "attention.masked_bias";
        "attention.rotary_emb.inv_freq"];
  StaticTensorNames.num_layers_key := None;
|}.

Definition GPT2_INFO : StaticTensorNames.t := {|
  StaticTensorNames.name := "GPT2LMHeadModel";
  StaticTensorNames.pre_weight_names := ["wte.weight"; "wpe.weight"];
  StaticTensorNames.post_weight_names := ["ln_f.weight"; "ln_f.bias"];
  StaticTensorNames.embed_weight_names := ["wte.weight"];
  StaticTensorNames.layer_prefix_format := "h.{idx}";
  StaticTensorNames.layer_weight_suffixes := [
    "attn.c_attn.weight";
    "attn.c_attn.bias";
    "attn.c_proj.weight";
    "attn.c_proj.bias";
    "ln_1.weight";
    "ln_1.bias";
    "ln_2.weight";
    "ln_2.bias";
    "mlp.c_proj.weight";
    "mlp.c_proj.bias";
    "mlp.c_fc.weight";
    "mlp.c_fc.bias";
    "mlp.c_proj.weight";
    "mlp.c_proj.bias"
  ];
  StaticTensorNames.num_layers_key := Some "n_layer";
|}.

Definition JAIS_INFO : StaticTensorNames.t := {|
  StaticTensorNames.name := "JAISLMHeadModel";
  StaticTensorNames.pre_weight_names :=
    ["transformer.wte.weight"; "transformer.relative_pe.slopes"];
  StaticTensorNames.post_weight_names :=
    ["transformer.ln_f.weight"; "transformer.ln_f.bias"];
  StaticTensorNames.embed_weight_names := ["transformer.wte.weight"];
  StaticTensorNames.layer_prefix_format := "transformer.h.{idx}";
  StaticTensorNames.layer_weight_suffixes := [
    "attn.c_attn.weight";
    "attn.c_attn.bias";
    "attn.c_proj.weight";
    "attn.c_proj.bias";
    "ln_1.weight";
    "ln_1.bias";
    "ln_2.weight";
    "ln_2.bias";
    "mlp.c_fc.weight";
    "mlp.c_fc.bias";
    "mlp.c_fc2.weight";
    "mlp.c_fc2.bias";
    "mlp.c_proj.weight";
    "mlp.c_proj.bias"
  ];
  StaticTensorNames.num_layers_key := Some "n_layer";
|}.

Definition GPT2_SEQCLASS_INFO : StaticTensorNames.t := {|
  StaticTensorNames.name := "GPT2ForSequenceClassification";
  StaticTensorNames.pre_weight_names :=
    ["transformer.wte.weight"; "transformer.wpe.weight"];
  StaticTensorNames.post_weight_names := [
    "transformer.ln_f.weight";
    "transformer.ln_f.bias";
    "score.weight"
  ];
  StaticTensorNames.layer_prefix_format := "transformer.h.{idx}";
  StaticTensorNames.embed_weight_names := StaticTensorNames.embed_weight_names GPT2_INFO;
  StaticTensorNames.layer_weight_suffixes := StaticTensorNames.layer_weight_suffixes GPT2_INFO;
  StaticTensorNames.num_layers_key := StaticTensorNames.num_layers_key GPT2_INFO;
|}.

Definition QWEN_INFO : StaticTensorNames.t := {|
  StaticTensorNames.name := "QWenLMHeadModel";
  StaticTensorNames.pre_weight_names := ["transformer.wte.weight"];
  StaticTensorNames.post_weight_names :=
    ["transformer.ln_f.weight"; "lm_head.weight"];
  StaticTensorNames.embed_weight_names :=
    ["transformer.wte.weight"; "lm_head.weight"];
  StaticTensorNames.layer_prefix_format := "transformer.h.{idx}";
  StaticTensorNames.layer_weight_suffixes := [
    "attn.c_attn.bias";
    "attn.c_attn.weight";
    "attn.c_proj.weight";
    "ln_1.weight";
    "ln_2.weight";
    "mlp.c_proj.weight";
    "mlp.w1.weight";
    "mlp.w2.weight"
  ];
  StaticTensorNames.num_layers_key := None;
|}.

Definition CHATGLM_INFO : StaticTensorNames.t := {|
  StaticTensorNames.name := "ChatGLMModel";
  StaticTensorNames.pre_weight_names := [
    "transformer.embedding.word_embeddings.weight";
    "transformer.rotary_pos_emb.inv_freq"
  ];
  StaticTensorNames.post_weight_names := [
    "transformer.encoder.final_layernorm.weight";
    "transformer.output_layer.weight"
  ];
  StaticTensorNames.embed_weight_names := [
    "transformer.embedding.word_embeddings.weight";
    "transformer.output_layer.weight"
  ];
  StaticTensorNames.layer_prefix_format := "transformer.encoder.layers.{idx}";
  StaticTensorNames.layer_weight_suffixes := [
    "input_layernorm.weight";
    "mlp.dense_4h_to_h.weight";
    "mlp.dense_h_to_4h.weight";
    "post_attention_layernorm.weight";
    "self_attention.dense.weight";
    "self_attention.query_key_value.bias";
    "self_attention.query_key_value.weight"
  ];
  StaticTensorNames.num_layers_key := None;
|}.

Definition FALCON_INFO : StaticTensorNames.t := {|
  StaticTensorNames.name := "FalconForCausalLM";
  StaticTensorNames.pre_weight_names := ["transformer.word_embeddings.weight"];
  StaticTensorNames.post_weight_names := [
    "transformer.ln_f.weight";
    "transformer.ln_f.bias";
    "lm_head.weight"
  ];
  StaticTensorNames.embed_weight_names :=
    ["transformer.word_embeddings.weight"; "lm_head.weight"];
  StaticTensorNames.layer_prefix_format := "transformer.h.{idx}";
  StaticTensorNames.layer_weight_suffixes := [
    "ln_attn.bias";
    "ln_attn.weight";
    "ln_mlp.bias";
    "ln_mlp.weight";
    "mlp.dense_4h_to_h.weight";
    "mlp.dense_h_to_4h.weight";
    "self_attention.dense.weight";
    "self_attention.query_key_value.weight"
  ];
  StaticTensorNames.num_layers_key := None;
|}.

(** ** PhiTensorNames *)

Module PhiTensorNames.

Definition ARCHITECTURE_NAME : string := "MixFormerSequentialForCausalLM".

Record t : Type := { n_layer : Z }.

(** [def from_config(cls, config)] carries no [@classmethod] decorator: it
    is a plain function of two positional parameters. *)
Definition from_config (cls config : PretrainedConfig) : result t :=
  n ← getattr config "n_layer";
  Ok {| n_layer := n |}.

Definition pre_weights (self : t) : list WeightInfo :=
  [weight_info "layers.0.wte.weight" true].

Definition post_weights (self : t) : list WeightInfo :=
  let fake_layer_idx := n_layer self in
  (fun suffix =>
     weight_info ("layers." +:+ str fake_layer_idx +:+ "." +:+ suffix)
       (String.prefix "linear." suffix))
    <$> ["linear.bias"; "linear.weight"; "ln.bias"; "ln.weight"].

Definition layer_weights (self : t) (index : Z)
    : result (option (list WeightInfo)) :=
  Ok (Some ((fun suffix =>
               weight_info (("layers." +:+ str index +:+ ".") +:+ suffix) false)
              <$> [
    "ln.bias";
    "ln.weight";
    "mixer.Wqkv.bias";
    "mixer.Wqkv.weight";
    "mixer.out_proj.bias";
    "mixer.out_proj.weight";
    "mixer.rotary_emb.inv_freq";
    "mlp.fc1.bias";
    "mlp.fc1.weight";
    "mlp.fc2.bias";
    "mlp.fc2.weight"
  ])).

Definition sliceable (self : t) : bool := true.

Definition num_layers_config_key (self : t) : string := "n_layer".

End PhiTensorNames.

#[global] Instance PhiTensorNames_arch : ArchitectureInfo PhiTensorNames.t := {
  pre_weights := PhiTensorNames.pre_weights;
  post_weights := PhiTensorNames.post_weights;
  layer_weights := PhiTensorNames.layer_weights;
  sliceable := PhiTensorNames.sliceable;
  num_layers_config_key := PhiTensorNames.num_layers_config_key;
}.

Definition PHI2_INFO : StaticTensorNames.t := {|
  StaticTensorNames.name := "PhiForCausalLM";
  StaticTensorNames.pre_weight_names := ["transformer.embd.wte.weight"];
  StaticTensorNames.post_weight_names := [
    "lm_head.linear.bias";
    "lm_head.linear.weight";
    "lm_head.ln.bias";
    "lm_head.ln.weight"
  ];
  StaticTensorNames.embed_weight_names :=
    ["lm_head.linear.weight"; "transformer.embd.wte.weight"];
  StaticTensorNames.layer_prefix_format := "transformer.h.{idx}";
  StaticTensorNames.layer_weight_suffixes := [
    "ln.bias";
    "ln.weight";
    "mixer.out_proj.bias";
    "mixer.out_proj.weight";
    "mixer.Wqkv.bias";
    "mixer.Wqkv.weight";
    "mlp.fc1.bias";
    "mlp.fc1.weight";
    "mlp.fc2.bias";
    "mlp.fc2.weight"
  ];
  StaticTensorNames.num_layers_key := Some "n_layer";
|}.

Definition PHI2_INFO_AGAIN_BUT_DIFFERENT : StaticTensorNames.t := {|
  StaticTensorNames.name := "PhiForCausalLM";
  StaticTensorNames.pre_weight_names := ["model.embed_tokens.weight"];
  StaticTensorNames.post_weight_names := [
    "lm_head.bias";
    "lm_head.weight";
    "model.final_layernorm.bias";
    "model.final_layernorm.weight"
  ];
  StaticTensorNames.embed_weight_names :=
    ["lm_head.weight"; "model.embed_tokens.weight"];
  StaticTensorNames.layer_prefix_format := "model.layers.{idx}";
  StaticTensorNames.layer_weight_suffixes := [
    "input_layernorm.bias";
    "input_layernorm.weight";
    "self_attn.dense.bias";
    "self_attn.dense.weight";
    "self_attn.q_proj.bias";
    "self_attn.q_proj.weight";
    "self_attn.k_proj.bias";
    "self_attn.k_proj.weight";
    "self_attn.v_proj.bias";
    "self_attn.v_proj.weight";
    "mlp.fc1.bias";
    "mlp.fc1.weight";
    "mlp.fc2.bias";
    "mlp.fc2.weight"
  ];
  StaticTensorNames.num_layers_key := None;
|}.

Definition BAICHUAN_INFO : StaticTensorNames.t := {|
  StaticTensorNames.name := "BaichuanForCausalLM";
  StaticTensorNames.pre_weight_names := ["model.embed_tokens.weight"];
  StaticTensorNames.post_weight_names := ["model.norm.weight"; "lm_head.weight"];
  StaticTensorNames.embed_weight_names :=
    ["model.embed_tokens.weight"; "lm_head.weight"];
  StaticTensorNames.layer_prefix_format := "model.layers.{idx}";
  StaticTensorNames.layer_weight_suffixes := [
    "input_layernorm.weight";
    "self_attn.W_pack.weight";
    "self_attn.o_proj.weight";
    "post_attention_layernorm.weight";
    "mlp.gate_proj.weight";
    "mlp.down_proj.weight";
    "mlp.up_proj.weight"
  ];
  StaticTensorNames.num_layers_key := None;
|}.

(** ** get_architecture_info *)

(** What [get_architecture_info] hands back: an object of one of the three
    descriptor classes, with method calls dispatched on the class. *)
Inductive Architecture : Type :=
  | Static (info : StaticTensorNames.t)
  | Mixtral (info : MixtralTensorNames.t)
  | Phi (info : PhiTensorNames.t).

#[global] Instance Architecture_arch : ArchitectureInfo Architecture := {
  pre_weights a :=
    match a with
    | Static d => pre_weights d
    | Mixtral d => pre_weights d
    | Phi d => pre_weights d
    end;
  post_weights a :=
    match a with
    | Static d => post_weights d
    | Mixtral d => post_weights d
    | Phi d => post_weights d
    end;
  layer_weights a :=
    match a with
    | Static d => layer_weights d
    | Mixtral d => layer_weights d
    | Phi d => layer_weights d
    end;
  sliceable a :=
    match a with
    | Static d => sliceable d
    | Mixtral d => sliceable d
    | Phi d => sliceable d
    end;
  num_layers_config_key a :=
    match a with
    | Static d => num_layers_config_key d
    | Mixtral d => num_layers_config_key d
    | Phi d => num_layers_config_key d
    end;
}.

(** A call that passes one positional argument to a function of two
    positional parameters: Python raises [TypeError] before the body runs. *)
Definition call_missing_argument {A B R : Type} (f : A -> B -> result R)
    (a : A) : result R :=
  Raise TypeError.

Definition supported : list StaticTensorNames.t := [
  LLAMA_INFO;
  MISTRAL_INFO;
  GPT_NEOX_INFO;
  QWEN_INFO;
  GPT2_INFO;
  GPT2_SEQCLASS_INFO;
  CHATGLM_INFO;
  STABLELM_INFO;
  JAIS_INFO;
  BAICHUAN_INFO;
  FALCON_INFO
].

(** The final [for arch in supported] scan and the [raise] after it. *)
Definition scan_supported (arch_name : string) : result Architecture :=
  match List.find (fun arch => String.eqb (StaticTensorNames.name arch) arch_name)
          supported with
  | Some arch => Ok (Static arch)
  | None => Raise (RuntimeError ("Unsupported architecture " +:+ arch_name))
  end.

Definition get_architecture_info (config : PretrainedConfig)
    : result Architecture :=
  if negb (length (architectures config) =? 1)%nat then
    Raise (RuntimeError "More than one architecture in config?")
  else
    match architectures config with
    | [] => Raise IndexError
    | arch_name :: _ =>
        if String.eqb arch_name PhiTensorNames.ARCHITECTURE_NAME then
          info ← call_missing_argument PhiTensorNames.from_config config;
          Ok (Phi info)
        else if String.eqb arch_name MixtralTensorNames.ARCHITECTURE_NAME then
          info ← MixtralTensorNames.from_config config;
          Ok (Mixtral info)
        else if String.eqb arch_name (StaticTensorNames.name PHI2_INFO) then
          if String.eqb (model_type config) "phi-msft" then
            Ok (Static PHI2_INFO)
          else if String.eqb (model_type config) "phi" then
            Ok (Static PHI2_INFO_AGAIN_BUT_DIFFERENT)
          else scan_supported arch_name
        else scan_supported arch_name
    end.

(** * Notions used in the statements *)

Definition sign_or_digit (c : ascii) : bool := is_digit c || Ascii.eqb c "-"%char.

Definition is_ok {A : Type} (r : result A) : bool :=
  match r with
  | Ok _ => true
  | Raise _ => false
  end.

(** A template is valid when [format] accepts it; by [format_ok_any_index]
    this does not depend on the index substituted. *)
Definition template_ok (template : string) : bool :=
  is_ok (format_idx template 0).

Definition is_brace (c : ascii) : bool :=
  Ascii.eqb c "{"%char || Ascii.eqb c "}"%char.

(** The text in front of a trailing [{idx}] field, when the template is
    brace-free text followed by that one field. *)
Fixpoint literal_before_idx (template : string) : option string :=
  match template with
  | EmptyString => None
  | String c rest =>
      if String.eqb template "{idx}" then Some EmptyString
      else if is_brace c then None
      else String c <$> literal_before_idx rest
  end.

(** The weights of one layer once the template has been formatted. *)
Definition suffixed (self : StaticTensorNames.t) (prefix : string) : list WeightInfo :=
  (fun suffix => StaticTensorNames._make_weightinfo self (prefix +:+ "." +:+ suffix))
    <$> StaticTensorNames.layer_weight_suffixes self.

(** The static descriptors defined by the module: the table scanned by the
    dispatcher and the two registered under the shared name. *)
Definition static_catalog : list StaticTensorNames.t :=
  supported ++ [PHI2_INFO; PHI2_INFO_AGAIN_BUT_DIFFERENT].

Definition llama_config_2 : PretrainedConfig := {|
  architectures := ["LlamaForCausalLM"];
  model_type := "llama";
  int_attrs := {["num_hidden_layers" := 2]};
|}.

(** The name a descriptor answers to: the [name] field of a static
    descriptor, the [ARCHITECTURE_NAME] constant of a computed one. *)
Definition identity (a : Architecture) : string :=
  match a with
  | Static d => StaticTensorNames.name d
  | Mixtral _ => MixtralTensorNames.ARCHITECTURE_NAME
  | Phi _ => PhiTensorNames.ARCHITECTURE_NAME
  end.

(** The names of the table scanned by the dispatcher. *)
Definition table_names : list string := StaticTensorNames.name <$> supported.

(** One name per cataloged descriptor: the two computed layouts, the table,
    and the two descriptors sharing ["PhiForCausalLM"]. *)
Definition supported_names : list string :=
  PhiTensorNames.ARCHITECTURE_NAME :: MixtralTensorNames.ARCHITECTURE_NAME
    :: (StaticTensorNames.name <$> static_catalog).

(** C2 as stated: one supported name is enough for dispatch to succeed. *)
Definition dispatch_succeeds_on_every_supported_name : Prop :=
  forall (config : PretrainedConfig) (arch_name : string),
    architectures config = [arch_name] ->
    In arch_name supported_names ->
    exists a, get_architecture_info config = Ok a /\ identity a = arch_name.

(** C4 as stated: the failure names the architecture and the unexpected
    model type. *)
Definition failure_reports_name_and_model_type : Prop :=
  forall (config : PretrainedConfig),
    architectures config = [StaticTensorNames.name PHI2_INFO] ->
    model_type config <> "phi-msft" ->
    model_type config <> "phi" ->
    exists msg,
      get_architecture_info config = Raise (RuntimeError msg) /\
      contains (StaticTensorNames.name PHI2_INFO) msg = true /\
      contains (model_type config) msg = true.

(** C3 as stated: each model type selects a descriptor whose per-layer
    suffixes use both words of its vocabulary. *)
Definition shared_name_suffix_vocabularies : Prop :=
  forall (config : PretrainedConfig),
    architectures config = ["PhiForCausalLM"] ->
    (model_type config = "phi-msft" ->
     exists d,
       get_architecture_info config = Ok (Static d) /\
       existsb (contains "mixer") (StaticTensorNames.layer_weight_suffixes d) = true /\
       existsb (contains "linear") (StaticTensorNames.layer_weight_suffixes d) = true) /\
    (model_type config = "phi" ->
     exists d,
       get_architecture_info config = Ok (Static d) /\
       existsb (contains "self_attn") (StaticTensorNames.layer_weight_suffixes d) = true /\
       existsb (contains "q_proj") (StaticTensorNames.layer_weight_suffixes d) = true).

Definition phi_config (mt : string) : PretrainedConfig := {|
  architectures := ["PhiForCausalLM"];
  model_type := mt;
  int_attrs := {["n_layer" := 32; "num_hidden_layers" := 32]};
|}.

Definition mixformer_config : PretrainedConfig := {|
  architectures := ["MixFormerSequentialForCausalLM"];
  model_type := "mixformer-sequential";
  int_attrs := {["n_layer" := 24]};
|}.

Definition mixtral_config (experts : Z) : PretrainedConfig := {|
  architectures := ["MixtralForCausalLM"];
  model_type := "mixtral";
  int_attrs := {["num_hidden_layers" := 32; "num_local_experts" := experts]};
|}.

Definition two_names_config : PretrainedConfig := {|
  architectures := ["LlamaForCausalLM"; "MistralForCausalLM"];
  model_type := "llama";
  int_attrs := {["num_hidden_layers" := 2]};
|}.

Definition no_name_config : PretrainedConfig := {|
  architectures := [];
  model_type := "llama";
  int_attrs := {["num_hidden_layers" := 2]};
|}.

#[global] Instance WeightInfo_eq_dec : EqDecision WeightInfo.
Proof. solve_decision. Defined.

(** How many times a value occurs in a list. *)
Definition occurrences {B : Type} `{EqDecision B} (x : B) (l : list B) : nat :=
  length (filter (fun y => y = x) l).

Definition not_dot (c : ascii) : bool := negb (Ascii.eqb c "."%char).

(** A non-empty string of digits and minus signs: what the rendering of an
    integer looks like. *)
Definition int_like (s : string) : bool :=
  negb (String.eqb s "") && all_chars sign_or_digit s.

Definition gpt2_config (n : Z) : PretrainedConfig := {|
  architectures := ["GPT2LMHeadModel"];
  model_type := "gpt2";
  int_attrs := {["n_layer" := n]};
|}.

(** The shape shared by the catalog's layer names: the template is text
    ending in a dot (or no text at all) followed by [{idx}], and no
    dot-separated component of that text or of a suffix looks like an
    integer. *)
Definition name_shape_ok (d : StaticTensorNames.t) : bool :=
  match literal_before_idx (StaticTensorNames.layer_prefix_format d) with
  | Some lit =>
      String.eqb (List.last (split_dot lit) "") ""
      && forallb (fun c => negb (int_like c)) (removelast (split_dot lit))
      && forallb (fun suffix => forallb (fun c => negb (int_like c)) (split_dot suffix))
           (StaticTensorNames.layer_weight_suffixes d)
  | None => false
  end.

(** C8 as stated, reading "contains" as the substring test. *)
Definition names_hold_only_own_index : Prop :=
  forall (d : StaticTensorNames.t) (i j : Z) (ws : list WeightInfo) (w : WeightInfo),
    In d static_catalog ->
    layer_weights d i = Ok (Some ws) ->
    In w ws ->
    contains (str i) (name w) = true /\
    (j <> i -> contains (str j) (name w) = false).

(** How a [layer_weights] answer stops [all_weights]: [None] cannot be
    passed to [extend], an exception travels on. *)
Definition layer_failure (r : result (option (list WeightInfo))) : option exn :=
  match r with
  | Ok (Some _) => None
  | Ok None => Some TypeError
  | Raise e => Some e
  end.

(** The number of weights each layer contributes. *)
Definition per_layer (a : Architecture) : nat :=
  match a with
  | Static d => length (StaticTensorNames.layer_weight_suffixes d)
  | Mixtral m => (3 * Z.to_nat (MixtralTensorNames.num_local_experts m) + 1)%nat
  | Phi _ => 11%nat
  end.

(** A static descriptor whose template [str.format] rejects. *)
Definition broken_template_info : StaticTensorNames.t := {|
  StaticTensorNames.name := "BrokenForCausalLM";
  StaticTensorNames.pre_weight_names := ["embed.weight"];
  StaticTensorNames.post_weight_names := ["head.weight"];
  StaticTensorNames.embed_weight_names := ["embed.weight"];
  StaticTensorNames.layer_prefix_format := "layers.{";
  StaticTensorNames.layer_weight_suffixes := ["weight"];
  StaticTensorNames.num_layers_key := None;
|}.

Definition unknown_config : PretrainedConfig := {|
  architectures := ["BertForMaskedLM"];
  model_type := "bert";
  int_attrs := {["num_hidden_layers" := 12]};
|}.

Definition mixtral_config_without_experts : PretrainedConfig := {|
  architectures := ["MixtralForCausalLM"];
  model_type := "mixtral";
  int_attrs := {["num_hidden_layers" := 32]};
|}.

Definition negative_layers_config : PretrainedConfig := {|
  architectures := ["LlamaForCausalLM"];
  model_type := "llama";
  int_attrs := {["num_hidden_layers" := -3]};
|}.

Definition config_without_layer_count : PretrainedConfig := {|
  architectures := ["GPT2LMHeadModel"];
  model_type := "gpt2";
  int_attrs := {["num_hidden_layers" := 12]};
|}.

(** No dot-separated component of the name looks like an integer. *)
Definition no_int_component (s : string) : bool :=
  forallb (fun c => negb (int_like c)) (split_dot s).

(** The names a static descriptor lists outside its layers carry no layer
    index. *)
Definition outside_names_plain (d : StaticTensorNames.t) : bool :=
  forallb no_int_component
    (StaticTensorNames.pre_weight_names d
       ++ StaticTensorNames.post_weight_names d
       ++ StaticTensorNames.embed_weight_names d).

(** The fields of [WeightInfo] that no descriptor of the module sets. *)
Definition plain_fields (w : WeightInfo) : Prop :=
  input_space w = None /\ output_space w = None /\
  optional w = false /\ aliases w = None.

(** * Properties *)

(** ** Strings *)

Section strings.
Implicit Types s t u : string.

Lemma append_cons c s t : String c s +:+ t = String c (s +:+ t).
Proof. reflexivity. Qed.

Lemma append_nil_r s : s +:+ "" = s.
Proof. induction s as [|c s IH]; [done|]. by rewrite append_cons, IH. Qed.

Lemma append_assoc s t u : (s +:+ t) +:+ u = s +:+ (t +:+ u).
Proof. induction s as [|c s IH]; [done|]. by rewrite !append_cons, IH. Qed.

Lemma all_chars_impl (p q : ascii -> bool) s :
  (forall c, p c = true -> q c = true) ->
  all_chars p s = true -> all_chars q s = true.
Proof.
  intros Hpq. induction s as [|c s IH]; [done|]. simpl.
  intros [Hc Hs]%andb_prop. rewrite (Hpq _ Hc). by apply IH.
Qed.

Lemma prefix_app s t : String.prefix s (s +:+ t) = true.
Proof.
  induction s as [|c s IH]; [by destruct t|].
  rewrite append_cons. simpl. by destruct (ascii_dec c c).
Qed.

Lemma contains_app_r sub s t : contains sub t = true -> contains sub (s +:+ t) = true.
Proof.
  intros Ht. induction s as [|c s IH]; [done|].
  rewrite append_cons. simpl. rewrite IH. apply orb_true_r.
Qed.

Lemma contains_prefix sub s : String.prefix sub s = true -> contains sub s = true.
Proof. intros H. destruct s; unfold contains; fold contains; by rewrite H. Qed.

Lemma contains_here sub t : contains sub (sub +:+ t) = true.
Proof. apply contains_prefix, prefix_app. Qed.

Lemma contains_middle sub s t : contains sub (s +:+ sub +:+ t) = true.
Proof. apply contains_app_r, contains_here. Qed.
End strings.

(** ** Decimal rendering *)

Lemma uint_digits (d : Decimal.uint) :
  all_chars is_digit (NilEmpty.string_of_uint d) = true.
Proof. induction d; simpl; auto. Qed.

Lemma str_chars (n : Z) : all_chars sign_or_digit (str n) = true.
Proof.
  assert (Hu : forall d, all_chars sign_or_digit (NilZero.string_of_uint d) = true).
  { intros d. destruct d; try done;
      apply (all_chars_impl is_digit); try apply uint_digits;
      intros c Hc; unfold sign_or_digit; by rewrite Hc. }
  unfold str. destruct (Z.to_int n); simpl; auto.
Qed.

Lemma str_inj (n m : Z) : str n = str m -> n = m.
Proof.
  assert (Hn : forall z, Z.to_int z <> Decimal.Pos Decimal.Nil /\
                         Z.to_int z <> Decimal.Neg Decimal.Nil).
  { intros [|p|p]; simpl; split; try done; intros [= H];
      by apply (Unsigned.to_uint_nonnil p). }
  unfold str. intros E. apply to_int_inj.
  destruct (Hn n) as [? ?], (Hn m) as [? ?].
  assert (Some (Z.to_int n) = Some (Z.to_int m)) as [= ->]; [|done].
  rewrite <- (NilZero.isi (Z.to_int n)), <- (NilZero.isi (Z.to_int m)) by done.
  by rewrite E.
Qed.

Lemma str_nonempty (n : Z) : str n <> "".
Proof.
  unfold str. destruct (Z.to_int n) as [d|d]; [|done].
  destruct d; simpl; done.
Qed.

(** ** Formatting the layer template *)

Lemma resolve_field_cases field :
  (forall i, resolve_field field i = Ok (str i)) \/
  (exists e, forall i, resolve_field field i = Raise e).
Proof. unfold resolve_field. repeat case_match; eauto. Qed.

Lemma format_scan_cons st c rest index :
  format_scan st (String c rest) index =
  match st with
  | Text =>
      if Ascii.eqb c "{"%char then
        match rest with
        | String c' rest' =>
            if Ascii.eqb c' "{"%char then
              out ← format_scan Text rest' index; Ok (String c out)
            else format_scan (Field EmptyString) rest index
        | EmptyString => Raise ValueError
        end
      else if Ascii.eqb c "}"%char then
        match rest with
        | String c' rest' =>
            if Ascii.eqb c' "}"%char then
              out ← format_scan Text rest' index; Ok (String c out)
            else Raise ValueError
        | EmptyString => Raise ValueError
        end
      else out ← format_scan Text rest index; Ok (String c out)
  | Field acc =>
      if Ascii.eqb c "}"%char then
        v ← resolve_field acc index;
        out ← format_scan Text rest index; Ok (v +:+ out)
      else if Ascii.eqb c "{"%char then
        if all_chars (fun c => negb (leaves_field_name c)) acc
        then Raise ValueError
        else Raise NotModelled
      else format_scan (Field (acc +:+ String c EmptyString)) rest index
  end.
Proof. reflexivity. Qed.

Lemma format_scan_ok_any_index (i j : Z) (s : string) :
  (forall st, is_ok (format_scan st s i) = is_ok (format_scan st s j)) /\
  (forall c st, is_ok (format_scan st (String c s) i)
                = is_ok (format_scan st (String c s) j)).
Proof.
  assert (Hbind : forall (r1 r2 : result string) (k1 k2 : string -> string),
             is_ok r1 = is_ok r2 ->
             is_ok (r1 ≫= λ out, Ok (k1 out)) = is_ok (r2 ≫= λ out, Ok (k2 out))).
  { by intros [] [] ?? ?. }
  induction s as [|a s [IH1 IH2]].
  - split; [by intros []|].
    intros c [|acc]; cbn [format_scan].
    + destruct (Ascii.eqb c "{"); [done|]. by destruct (Ascii.eqb c "}").
    + destruct (Ascii.eqb c "}"); [|by destruct (Ascii.eqb c "{")].
      destruct (resolve_field_cases acc) as [E|[e E]]; by rewrite !E.
  - split; [intros st; apply IH2|].
    intros c [|acc]; rewrite !(format_scan_cons _ c).
    + destruct (Ascii.eqb c "{").
      { destruct (Ascii.eqb a "{"); [by apply Hbind|apply IH2]. }
      destruct (Ascii.eqb c "}").
      { destruct (Ascii.eqb a "}"); [by apply Hbind|done]. }
      apply Hbind, IH2.
    + destruct (Ascii.eqb c "}").
      { destruct (resolve_field_cases acc) as [E|[e E]]; rewrite !E; [|done].
        apply (Hbind _ _ (String.append _) (String.append _)), IH2. }
      destruct (Ascii.eqb c "{"); [done|]. apply IH2.
Qed.

Lemma format_ok_any_index (template : string) (i : Z) :
  template_ok template = true -> exists prefix, format_idx template i = Ok prefix.
Proof.
  unfold template_ok, format_idx.
  rewrite (proj1 (format_scan_ok_any_index 0 i template) Text).
  destruct (format_scan Text template i); [eauto|done].
Qed.

Lemma format_literal_before_idx (template lit : string) (i : Z) :
  literal_before_idx template = Some lit ->
  format_idx template i = Ok (lit +:+ str i).
Proof.
  unfold format_idx. revert lit.
  induction template as [|c rest IH]; [done|]. intros lit.
  unfold literal_before_idx; fold literal_before_idx.
  destruct (String.eqb_spec (String c rest) "{idx}") as [->|Hne].
  - intros [= <-]. cbn.
    change ((("" +:+ "i") +:+ "d") +:+ "x") with "idx".
    unfold resolve_field. simpl. by rewrite append_nil_r.
  - destruct (is_brace c) eqn:Hc; [done|].
    destruct (literal_before_idx rest) as [lit'|] eqn:Hl; [|done].
    intros [= <-]. cbn [format_scan].
    unfold is_brace in Hc. apply orb_false_elim in Hc as [-> ->].
    by rewrite (IH lit').
Qed.

(** ** The template method [all_weights] *)

Lemma range_seq (n : Z) : range n = Z.of_nat <$> seq 0 (Z.to_nat n).
Proof. reflexivity. Qed.

Lemma range_bounds (n i : Z) : In i (range n) -> 0 <= i < n.
Proof.
  unfold range. rewrite <- list_elem_of_In, list_elem_of_fmap.
  intros (k & -> & Hk%elem_of_seq). lia.
Qed.

Lemma range_length (n : Z) : 0 <= n -> Z.of_nat (length (range n)) = n.
Proof. intros Hn. unfold range. rewrite length_fmap, length_seq. lia. Qed.

Section interface.
Context {A : Type} `{ArchitectureInfo A}.

Lemma extend_layers_ok (self : A) (ls : Z -> list WeightInfo)
    (idxs : list Z) (res : list WeightInfo) :
  (forall i, In i idxs -> layer_weights self i = Ok (Some (ls i))) ->
  extend_layers (layer_weights self) idxs res
  = Ok (res ++ concat (ls <$> idxs)).
Proof.
  revert res. induction idxs as [|i idxs IH]; intros res Hls; simpl.
  - by rewrite app_nil_r.
  - rewrite (Hls i) by (by left).
    rewrite IH by (intros j Hj; apply Hls; by right).
    by rewrite <- app_assoc.
Qed.

Lemma all_weights_ok (self : A) (config : PretrainedConfig) (N : Z)
    (ls : Z -> list WeightInfo) :
  getattr config (num_layers_config_key self) = Ok N ->
  (forall i, 0 <= i < N -> layer_weights self i = Ok (Some (ls i))) ->
  all_weights self config
  = Ok (pre_weights self ++ concat (ls <$> range N) ++ post_weights self).
Proof.
  intros HN Hls. unfold all_weights, num_layers. rewrite HN. simpl.
  rewrite (extend_layers_ok self ls)
    by (intros i Hi%range_bounds; by apply Hls).
  simpl. by rewrite <- app_assoc.
Qed.
End interface.

Lemma length_concat_uniform {B : Type} (ls : list (list B)) (S : nat) :
  Forall (fun l => length l = S) ls -> length (concat ls) = (length ls * S)%nat.
Proof.
  induction 1 as [|l ls Hl _ IH]; [done|].
  simpl. rewrite length_app, IH, Hl. lia.
Qed.

(** ** StaticTensorNames *)

Section static.
Import StaticTensorNames.
Implicit Types (self : StaticTensorNames.t) (index : Z).

Lemma layer_weights_loop_ok self index prefix suffixes res :
  format_idx (layer_prefix_format self) index = Ok prefix ->
  layer_weights_loop self index suffixes res
  = Ok (res ++ ((fun suffix => _make_weightinfo self (prefix +:+ "." +:+ suffix))
                  <$> suffixes)).
Proof.
  intros Hfmt. revert res.
  induction suffixes as [|suffix suffixes IH]; intros res; simpl.
  - by rewrite app_nil_r.
  - rewrite Hfmt. simpl. rewrite IH. by rewrite <- app_assoc.
Qed.

Lemma layer_weights_formatted self index prefix :
  format_idx (layer_prefix_format self) index = Ok prefix ->
  StaticTensorNames.layer_weights self index = Ok (Some (suffixed self prefix)).
Proof.
  intros Hfmt. unfold StaticTensorNames.layer_weights.
  by rewrite (layer_weights_loop_ok _ _ prefix).
Qed.

Lemma layer_weights_not_None self index :
  StaticTensorNames.layer_weights self index <> Ok None.
Proof.
  unfold StaticTensorNames.layer_weights.
  by destruct (layer_weights_loop _ _ _ _).
Qed.

Lemma length_suffixed self prefix :
  length (suffixed self prefix) = length (layer_weight_suffixes self).
Proof. unfold suffixed. by rewrite length_fmap. Qed.

Lemma layer_weights_valid self index :
  template_ok (layer_prefix_format self) = true ->
  exists prefix,
    format_idx (layer_prefix_format self) index = Ok prefix /\
    StaticTensorNames.layer_weights self index = Ok (Some (suffixed self prefix)).
Proof.
  intros Hok. destruct (format_ok_any_index _ index Hok) as [prefix Hp].
  exists prefix. split; [done|]. by apply layer_weights_formatted.
Qed.
End static.

Ltac in_catalog := unfold static_catalog, supported; simpl; tauto.

Lemma catalog_templates_ok (d : StaticTensorNames.t) :
  In d static_catalog ->
  template_ok (StaticTensorNames.layer_prefix_format d) = true.
Proof.
  assert (H : forallb (fun d => template_ok (StaticTensorNames.layer_prefix_format d))
                static_catalog = true) by (vm_compute; reflexivity).
  rewrite forallb_forall in H. apply H.
Qed.

(** C1. For every architecture descriptor and every configuration whose
    layer-count attribute holds N >= 0, [all_weights] returns the pre-weights,
    then the weights of layers 0, 1, ..., N-1 in that order, then the
    post-weights (each [layer_weights i] being the list [ls i]). For a static
    descriptor with a valid layer template, P pre-weight names, Q post-weight
    names and S suffixes, [all_weights] returns P + N*S + Q entries. *)
Theorem all_weights_concatenation :
  (forall (A : Type) (HA : ArchitectureInfo A) (self : A)
          (config : PretrainedConfig) (N : Z) (ls : Z -> list WeightInfo),
      getattr config (num_layers_config_key self) = Ok N ->
      0 <= N ->
      (forall i, 0 <= i < N -> layer_weights self i = Ok (Some (ls i))) ->
      all_weights self config
      = Ok (pre_weights self
              ++ concat ((fun k => ls (Z.of_nat k)) <$> seq 0 (Z.to_nat N))
              ++ post_weights self)) /\
  (forall (d : StaticTensorNames.t) (config : PretrainedConfig) (N : Z),
      getattr config (num_layers_config_key d) = Ok N ->
      0 <= N ->
      template_ok (StaticTensorNames.layer_prefix_format d) = true ->
      exists ws,
        all_weights d config = Ok ws /\
        Z.of_nat (length ws)
        = Z.of_nat (length (StaticTensorNames.pre_weight_names d))
          + N * Z.of_nat (length (StaticTensorNames.layer_weight_suffixes d))
          + Z.of_nat (length (StaticTensorNames.post_weight_names d))).
Proof.
  split.
  - intros A HA self config N ls HN _ Hls.
    rewrite (all_weights_ok self config N ls HN Hls).
    by rewrite range_seq, <- list_fmap_compose.
  - intros d config N HN Hpos Hok.
    set (ls := fun i => match format_idx (StaticTensorNames.layer_prefix_format d) i with
                        | Ok prefix => suffixed d prefix
                        | Raise _ => []
                        end).
    assert (Hls : forall i, 0 <= i < N -> layer_weights d i = Ok (Some (ls i))).
    { intros i _. destruct (layer_weights_valid d i Hok) as (prefix & Hp & Hw).
      unfold ls. by rewrite Hp. }
    eexists. split; [exact (all_weights_ok d config N ls HN Hls)|].
    rewrite !length_app.
    rewrite (length_concat_uniform _ (length (StaticTensorNames.layer_weight_suffixes d))).
    + rewrite length_fmap. simpl. unfold StaticTensorNames.pre_weights,
        StaticTensorNames.post_weights. rewrite !length_fmap.
      pose proof (range_length N Hpos). lia.
    + apply Forall_fmap, Forall_forall. intros i _. simpl.
      destruct (layer_weights_valid d i Hok) as (prefix & Hp & _).
      unfold ls. rewrite Hp. apply length_suffixed.
Qed.

Lemma all_weights_concatenation_witness :
  (exists l0 l1,
      all_weights LLAMA_INFO llama_config_2
      = Ok (pre_weights LLAMA_INFO ++ (l0 ++ l1 ++ []) ++ post_weights LLAMA_INFO)
      /\ layer_weights LLAMA_INFO 0 = Ok (Some l0)
      /\ layer_weights LLAMA_INFO 1 = Ok (Some l1)) /\
  (exists ws,
      all_weights LLAMA_INFO llama_config_2 = Ok ws /\
      Z.of_nat (length ws) = 1 + 2 * 9 + 2).
Proof.
  split.
  - exists (suffixed LLAMA_INFO "model.layers.0"), (suffixed LLAMA_INFO "model.layers.1").
    split; [|by split].
    apply (proj1 all_weights_concatenation _ _ LLAMA_INFO llama_config_2 2
             (fun i => suffixed LLAMA_INFO ("model.layers." +:+ str i))).
    + reflexivity.
    + lia.
    + intros i _. apply layer_weights_formatted.
      by apply format_literal_before_idx.
  - apply (proj2 all_weights_concatenation LLAMA_INFO llama_config_2 2).
    + reflexivity.
    + lia.
    + reflexivity.
Defined.

(** C10. For every static descriptor and every integer index (negative, or
    at or beyond any layer count: the call takes no layer count at all),
    [layer_weights] never answers [None], and with a valid layer template it
    returns a list with exactly one entry per suffix. Every descriptor of the
    catalog has a valid template. *)
Theorem static_layer_weights_total :
  forall (d : StaticTensorNames.t) (index : Z),
    layer_weights d index <> Ok None /\
    (template_ok (StaticTensorNames.layer_prefix_format d) = true ->
     exists ws,
       layer_weights d index = Ok (Some ws) /\
       length ws = length (StaticTensorNames.layer_weight_suffixes d)) /\
    (In d static_catalog ->
     exists ws,
       layer_weights d index = Ok (Some ws) /\
       length ws = length (StaticTensorNames.layer_weight_suffixes d)).
Proof.
  intros d index.
  assert (Hvalid : template_ok (StaticTensorNames.layer_prefix_format d) = true ->
                   exists ws,
                     layer_weights d index = Ok (Some ws) /\
                     length ws = length (StaticTensorNames.layer_weight_suffixes d)).
  { intros Hok. destruct (layer_weights_valid d index Hok) as (prefix & _ & Hw).
    exists (suffixed d prefix). split; [done|]. apply length_suffixed. }
  split; [apply layer_weights_not_None|].
  split; [done|].
  intros Hd. by apply Hvalid, catalog_templates_ok.
Qed.

Lemma static_layer_weights_total_witness :
  (exists ws, layer_weights GPT2_INFO (-1) = Ok (Some ws) /\ length ws = 14%nat) /\
  (exists ws, layer_weights LLAMA_INFO 1000 = Ok (Some ws) /\ length ws = 9%nat).
Proof.
  split.
  - apply (proj1 (proj2 (static_layer_weights_total GPT2_INFO (-1)))).
    reflexivity.
  - apply (proj2 (proj2 (static_layer_weights_total LLAMA_INFO 1000))).
    in_catalog.
Defined.

(** ** Dispatch *)

Lemma dispatch_not_single (config : PretrainedConfig) :
  length (architectures config) <> 1%nat ->
  get_architecture_info config
  = Raise (RuntimeError "More than one architecture in config?").
Proof.
  intros Hlen. unfold get_architecture_info.
  destruct (Nat.eqb_spec (length (architectures config)) 1); [done|reflexivity].
Qed.

Lemma dispatch_single (config : PretrainedConfig) (arch_name : string) :
  architectures config = [arch_name] ->
  get_architecture_info config =
  if String.eqb arch_name PhiTensorNames.ARCHITECTURE_NAME then Raise TypeError
  else if String.eqb arch_name MixtralTensorNames.ARCHITECTURE_NAME then
    info ← MixtralTensorNames.from_config config; Ok (Mixtral info)
  else if String.eqb arch_name "PhiForCausalLM" then
    if String.eqb (model_type config) "phi-msft" then Ok (Static PHI2_INFO)
    else if String.eqb (model_type config) "phi" then
      Ok (Static PHI2_INFO_AGAIN_BUT_DIFFERENT)
    else scan_supported arch_name
  else scan_supported arch_name.
Proof. intros Harch. unfold get_architecture_info. by rewrite Harch. Qed.

Lemma dispatch_table (config : PretrainedConfig) (arch_name : string) :
  architectures config = [arch_name] ->
  In arch_name table_names ->
  exists d, In d supported /\ StaticTensorNames.name d = arch_name /\
            get_architecture_info config = Ok (Static d).
Proof.
  intros Harch Hin. rewrite (dispatch_single config arch_name Harch).
  unfold table_names, supported in Hin. simpl in Hin.
  repeat (destruct Hin as [<-|Hin];
          [eexists; split; [|split; [|reflexivity]];
           [unfold supported; simpl; tauto|reflexivity]|]).
  done.
Qed.

(** C5. A configuration whose list of declared architectures has length
    zero, or more than one, makes [get_architecture_info] raise at once:
    the result is the same [RuntimeError] whatever the names, the model type
    and the attributes are, and no descriptor is returned. *)
Theorem dispatch_rejects_wrong_arity (config : PretrainedConfig) :
  length (architectures config) = 0%nat \/ (length (architectures config) > 1)%nat ->
  get_architecture_info config
  = Raise (RuntimeError "More than one architecture in config?") /\
  (forall a, get_architecture_info config <> Ok a).
Proof.
  intros Hlen.
  assert (E : get_architecture_info config
              = Raise (RuntimeError "More than one architecture in config?")).
  { apply dispatch_not_single. lia. }
  split; [done|]. intros a. by rewrite E.
Qed.

Lemma dispatch_rejects_wrong_arity_witness :
  get_architecture_info no_name_config
  = Raise (RuntimeError "More than one architecture in config?") /\
  get_architecture_info two_names_config
  = Raise (RuntimeError "More than one architecture in config?").
Proof.
  split.
  - apply (dispatch_rejects_wrong_arity no_name_config). left. reflexivity.
  - apply (dispatch_rejects_wrong_arity two_names_config). right. simpl. lia.
Defined.

Lemma scan_supported_phi :
  scan_supported "PhiForCausalLM"
  = Raise (RuntimeError "Unsupported architecture PhiForCausalLM").
Proof. reflexivity. Qed.

(** C4 (amended). With the shared name ["PhiForCausalLM"] and a model type
    that is neither ["phi-msft"] nor ["phi"], [get_architecture_info] falls
    through to the table scan and raises the RuntimeError
    "Unsupported architecture PhiForCausalLM": the message carries the
    architecture name and is the same for every such model type. *)
Theorem dispatch_unknown_model_type (config : PretrainedConfig) :
  architectures config = [StaticTensorNames.name PHI2_INFO] ->
  model_type config <> "phi-msft" ->
  model_type config <> "phi" ->
  get_architecture_info config
  = Raise (RuntimeError "Unsupported architecture PhiForCausalLM") /\
  contains (StaticTensorNames.name PHI2_INFO)
    "Unsupported architecture PhiForCausalLM" = true.
Proof.
  intros Harch Hmsft Hphi. split; [|reflexivity].
  rewrite (dispatch_single config _ Harch). simpl.
  destruct (String.eqb_spec (model_type config) "phi-msft"); [done|].
  destruct (String.eqb_spec (model_type config) "phi"); [done|].
  apply scan_supported_phi.
Qed.

Lemma dispatch_unknown_model_type_witness :
  get_architecture_info (phi_config "phi-2")
  = Raise (RuntimeError "Unsupported architecture PhiForCausalLM") /\
  contains "PhiForCausalLM" "Unsupported architecture PhiForCausalLM" = true.
Proof.
  apply (dispatch_unknown_model_type (phi_config "phi-2")).
  - reflexivity.
  - simpl. discriminate.
  - simpl. discriminate.
Defined.

(** C4 as stated fails: for model type ["phi-2"] the error message does not
    contain the model type. *)
Lemma failure_omits_model_type : ~ failure_reports_name_and_model_type.
Proof.
  intros Hclaim.
  destruct (Hclaim (phi_config "phi-2")) as (msg & Hmsg & _ & Hmt);
    [reflexivity|simpl; discriminate|simpl; discriminate|].
  vm_compute in Hmsg. injection Hmsg as <-.
  vm_compute in Hmt. discriminate.
Qed.

(** C3 (amended). With the shared name ["PhiForCausalLM"], model type
    ["phi-msft"] selects [PHI2_INFO], whose per-layer suffixes name the
    attention block [mixer] and never [self_attn] or [q_proj]; the word
    [linear] names its head tensors, among the post-weights, and occurs in
    no per-layer suffix. Model type ["phi"] selects
    [PHI2_INFO_AGAIN_BUT_DIFFERENT], whose per-layer suffixes use [self_attn]
    and [q_proj] and never [mixer], and none of whose names uses [linear].
    The two descriptors differ in their pre-weight names, in their
    post-weight names and in the weights of every layer. *)
Theorem dispatch_shared_name (config : PretrainedConfig) :
  architectures config = ["PhiForCausalLM"] ->
  (model_type config = "phi-msft" ->
   get_architecture_info config = Ok (Static PHI2_INFO)) /\
  (model_type config = "phi" ->
   get_architecture_info config = Ok (Static PHI2_INFO_AGAIN_BUT_DIFFERENT)) /\
  (let A := PHI2_INFO in
   let B := PHI2_INFO_AGAIN_BUT_DIFFERENT in
   existsb (contains "mixer") (StaticTensorNames.layer_weight_suffixes A) = true /\
   existsb (contains "linear") (StaticTensorNames.post_weight_names A) = true /\
   existsb (contains "linear") (StaticTensorNames.layer_weight_suffixes A) = false /\
   existsb (contains "self_attn") (StaticTensorNames.layer_weight_suffixes A) = false /\
   existsb (contains "q_proj") (StaticTensorNames.layer_weight_suffixes A) = false /\
   existsb (contains "self_attn") (StaticTensorNames.layer_weight_suffixes B) = true /\
   existsb (contains "q_proj") (StaticTensorNames.layer_weight_suffixes B) = true /\
   existsb (contains "mixer") (StaticTensorNames.layer_weight_suffixes B) = false /\
   existsb (contains "linear")
     (StaticTensorNames.layer_weight_suffixes B
        ++ StaticTensorNames.pre_weight_names B
        ++ StaticTensorNames.post_weight_names B) = false /\
   StaticTensorNames.pre_weight_names A <> StaticTensorNames.pre_weight_names B /\
   StaticTensorNames.post_weight_names A <> StaticTensorNames.post_weight_names B /\
   pre_weights A <> pre_weights B /\
   post_weights A <> post_weights B /\
   (forall i wa wb,
       layer_weights A i = Ok (Some wa) -> layer_weights B i = Ok (Some wb) ->
       wa <> wb)).
Proof.
  intros Harch. rewrite (dispatch_single config _ Harch).
  split; [by intros ->|]. split; [by intros ->|].
  cbv zeta. repeat split; try reflexivity; try discriminate.
  intros i wa wb Ha Hb ->.
  destruct (layer_weights_valid PHI2_INFO i eq_refl) as (pa & _ & Ha').
  destruct (layer_weights_valid PHI2_INFO_AGAIN_BUT_DIFFERENT i eq_refl)
    as (pb & _ & Hb').
  change (layer_weights PHI2_INFO i) with (StaticTensorNames.layer_weights PHI2_INFO i) in Ha.
  change (layer_weights PHI2_INFO_AGAIN_BUT_DIFFERENT i)
    with (StaticTensorNames.layer_weights PHI2_INFO_AGAIN_BUT_DIFFERENT i) in Hb.
  rewrite Ha' in Ha. rewrite Hb' in Hb.
  injection Ha as Ha. injection Hb as Hb.
  apply (f_equal length) in Ha, Hb. rewrite length_suffixed in Ha, Hb.
  simpl in Ha, Hb. congruence.
Qed.

Lemma dispatch_shared_name_witness :
  get_architecture_info (phi_config "phi-msft") = Ok (Static PHI2_INFO) /\
  get_architecture_info (phi_config "phi")
  = Ok (Static PHI2_INFO_AGAIN_BUT_DIFFERENT).
Proof.
  split.
  - apply (proj1 (dispatch_shared_name (phi_config "phi-msft") eq_refl)).
    reflexivity.
  - apply (proj1 (proj2 (dispatch_shared_name (phi_config "phi") eq_refl))).
    reflexivity.
Defined.

(** C3 as stated fails: model type ["phi-msft"] selects [PHI2_INFO], and
    none of its per-layer suffixes contains [linear]. *)
Lemma phi_msft_suffixes_lack_linear : ~ shared_name_suffix_vocabularies.
Proof.
  intros Hclaim.
  destruct (Hclaim (phi_config "phi-msft") eq_refl) as [Hmsft _].
  destruct (Hmsft eq_refl) as (d & Hd & _ & Hlinear).
  vm_compute in Hd. injection Hd as <-.
  vm_compute in Hlinear. discriminate.
Qed.

(** The call [PhiTensorNames.from_config(config)] reaches a function that
    was not made a class method, unlike [MixtralTensorNames.from_config]:
    whatever the configuration holds, dispatch on
    ["MixFormerSequentialForCausalLM"] ends in [TypeError]. *)
Lemma dispatch_mixformer (config : PretrainedConfig) :
  architectures config = [PhiTensorNames.ARCHITECTURE_NAME] ->
  get_architecture_info config = Raise TypeError.
Proof. intros Harch. by rewrite (dispatch_single config _ Harch). Qed.

(** C2 (amended). A configuration declaring exactly one name succeeds in
    dispatch, with a descriptor answering to that name, when the name is one
    of the eleven table names, or ["MixtralForCausalLM"] with the expert
    count present, or ["PhiForCausalLM"] with model type ["phi-msft"] or
    ["phi"]. The result is a function of the declared names, the model type
    and the expert-count attribute alone. *)
Theorem dispatch_supported (config : PretrainedConfig) (arch_name : string) :
  architectures config = [arch_name] ->
  (In arch_name table_names \/
   (arch_name = MixtralTensorNames.ARCHITECTURE_NAME /\
    is_Some (int_attrs config !! "num_local_experts")) \/
   (arch_name = StaticTensorNames.name PHI2_INFO /\
    (model_type config = "phi-msft" \/ model_type config = "phi"))) ->
  (exists a, get_architecture_info config = Ok a /\ identity a = arch_name) /\
  (forall config' : PretrainedConfig,
      architectures config' = architectures config ->
      model_type config' = model_type config ->
      int_attrs config' !! "num_local_experts"
      = int_attrs config !! "num_local_experts" ->
      get_architecture_info config' = get_architecture_info config).
Proof.
  intros Harch Hcase. split.
  - destruct Hcase as [Htable|[[-> [E HE]]|[-> Hmt]]].
    + destruct (dispatch_table config arch_name Harch Htable) as (d & _ & Hd & ->).
      by exists (Static d).
    + rewrite (dispatch_single config _ Harch).
      exists (Mixtral {| MixtralTensorNames.num_local_experts := E |}).
      split; [|done]. simpl.
      unfold MixtralTensorNames.from_config, getattr. by rewrite HE.
    + rewrite (dispatch_single config _ Harch). simpl.
      destruct Hmt as [-> | ->]; eexists; (split; [reflexivity|reflexivity]).
  - intros config' Ha Hm He. rewrite Harch in Ha.
    rewrite (dispatch_single config _ Harch), (dispatch_single config' _ Ha).
    unfold MixtralTensorNames.from_config, getattr. by rewrite Hm, He.
Qed.

Lemma dispatch_supported_witness :
  (exists a, get_architecture_info (mixtral_config 8) = Ok a /\
             identity a = "MixtralForCausalLM") /\
  (exists a, get_architecture_info llama_config_2 = Ok a /\
             identity a = "LlamaForCausalLM") /\
  (exists a, get_architecture_info (phi_config "phi") = Ok a /\
             identity a = "PhiForCausalLM").
Proof.
  split; [|split].
  - apply (dispatch_supported (mixtral_config 8) "MixtralForCausalLM" eq_refl).
    right. left. split; [reflexivity|]. exists 8. reflexivity.
  - apply (dispatch_supported llama_config_2 "LlamaForCausalLM" eq_refl).
    left. unfold table_names, supported. simpl. by left.
  - apply (dispatch_supported (phi_config "phi") "PhiForCausalLM" eq_refl).
    right. right. split; [reflexivity|]. by right.
Defined.

(** C2 as stated fails: ["PhiForCausalLM"] is a supported name, yet with
    model type ["phi-2"] dispatch raises; and the supported name
    ["MixFormerSequentialForCausalLM"] never dispatches. *)
Lemma dispatch_fails_on_supported_names :
  ~ dispatch_succeeds_on_every_supported_name /\
  In "PhiForCausalLM" supported_names /\
  get_architecture_info (phi_config "phi-2")
  = Raise (RuntimeError "Unsupported architecture PhiForCausalLM") /\
  In "MixFormerSequentialForCausalLM" supported_names /\
  get_architecture_info mixformer_config = Raise TypeError.
Proof.
  assert (Hphi : In "PhiForCausalLM" supported_names).
  { unfold supported_names. in_catalog. }
  split; [|split; [done|split; [reflexivity|split; [by left|reflexivity]]]].
  intros Hclaim.
  destruct (Hclaim (phi_config "phi-2") "PhiForCausalLM" eq_refl Hphi)
    as (a & Ha & _).
  vm_compute in Ha. discriminate.
Qed.

(** C7. A configuration declaring [["LlamaForCausalLM"]] with two hidden
    layers is dispatched to [LLAMA_INFO], and [all_weights] returns 21
    entries: the pre-weight, nine per layer for layers 0 and 1, two
    post-weights. The first and the last entry are embedding weights and no
    per-layer entry is. *)
Theorem llama_two_layers (config : PretrainedConfig) :
  architectures config = ["LlamaForCausalLM"] ->
  int_attrs config !! "num_hidden_layers" = Some 2 ->
  exists (a : Architecture) (pre l0 l1 post : list WeightInfo),
    get_architecture_info config = Ok a /\
    a = Static LLAMA_INFO /\
    pre_weights a = pre /\
    layer_weights a 0 = Ok (Some l0) /\
    layer_weights a 1 = Ok (Some l1) /\
    post_weights a = post /\
    all_weights a config = Ok (pre ++ l0 ++ l1 ++ post) /\
    length (pre ++ l0 ++ l1 ++ post) = 21%nat /\
    length pre = 1%nat /\ length l0 = 9%nat /\ length l1 = 9%nat /\
    length post = 2%nat /\
    is_embed <$> head (pre ++ l0 ++ l1 ++ post) = Some true /\
    is_embed <$> last (pre ++ l0 ++ l1 ++ post) = Some true /\
    Forall (fun w => is_embed w = false) (l0 ++ l1).
Proof.
  intros Harch Hn.
  exists (Static LLAMA_INFO). do 4 eexists.
  split; [by rewrite (dispatch_single config _ Harch)|].
  split; [reflexivity|]. split; [reflexivity|].
  split; [reflexivity|]. split; [reflexivity|]. split; [reflexivity|].
  split.
  { unfold all_weights, num_layers, getattr.
    change (num_layers_config_key (Static LLAMA_INFO)) with "num_hidden_layers".
    rewrite Hn. reflexivity. }
  repeat split; try reflexivity.
  vm_compute. repeat constructor.
Qed.

Lemma llama_two_layers_witness :
  exists ws,
    all_weights (Static LLAMA_INFO) llama_config_2 = Ok ws /\ length ws = 21%nat.
Proof.
  destruct (llama_two_layers llama_config_2 eq_refl eq_refl)
    as (a & pre & l0 & l1 & post & _ & -> & _ & _ & _ & _ & Hall & Hlen & _).
  eexists. split; [exact Hall|exact Hlen].
Defined.

(** ** MixtralTensorNames *)

Lemma range_lookup (n i : Z) : 0 <= i < n -> range n !! Z.to_nat i = Some i.
Proof.
  intros Hi. unfold range. rewrite list_lookup_fmap.
  rewrite lookup_seq_lt by lia. simpl. f_equal. lia.
Qed.

Lemma lookup_flat_map_triples {B C : Type} (f : B -> list C) (l : list B)
    (k j : nat) :
  (forall b, length (f b) = 3%nat) -> (j < 3)%nat ->
  flat_map f l !! (3 * k + j)%nat = l !! k ≫= fun b => f b !! j.
Proof.
  intros Hf Hj. revert k. induction l as [|b l IH]; intros k; cbn [flat_map].
  - by rewrite !lookup_nil.
  - destruct k as [|k].
    + rewrite lookup_app_l by (rewrite Hf; lia). done.
    + rewrite lookup_app_r by (rewrite Hf; lia). rewrite Hf.
      replace (3 * S k + j - 3)%nat with (3 * k + j)%nat by lia.
      rewrite IH. done.
Qed.

Lemma length_flat_map_triples {B C : Type} (f : B -> list C) (l : list B) :
  (forall b, length (f b) = 3%nat) -> length (flat_map f l) = (3 * length l)%nat.
Proof.
  intros Hf. induction l as [|b l IH]; [done|].
  simpl. rewrite length_app, Hf, IH. lia.
Qed.

Lemma mistral_prefix (index : Z) :
  format_idx (StaticTensorNames.layer_prefix_format MISTRAL_INFO) index
  = Ok ("model.layers." +:+ str index).
Proof. by apply format_literal_before_idx. Qed.

(** C6. For expert count E >= 0 and every layer index, the Mixtral
    descriptor returns 3*E + 1 entries: at position 3*e + k the k-th of
    w1, w2, w3 of expert e (experts in increasing order), then the gate at
    position 3*E; none of the entries is an embedding weight. *)
Theorem mixtral_layer_weights (E index : Z) :
  0 <= E ->
  exists ws,
    layer_weights {| MixtralTensorNames.num_local_experts := E |} index
    = Ok (Some ws) /\
    Z.of_nat (length ws) = 3 * E + 1 /\
    (forall (e : Z) (k : nat) (param : string),
        0 <= e < E ->
        ["w1"; "w2"; "w3"] !! k = Some param ->
        ws !! (3 * Z.to_nat e + k)%nat
        = Some (weight_info
                  (("model.layers." +:+ str index) +:+ ".block_sparse_moe.experts."
                     +:+ str e +:+ "." +:+ param +:+ ".weight")
                  false)) /\
    ws !! (3 * Z.to_nat E)%nat
    = Some (weight_info
              (("model.layers." +:+ str index) +:+ ".block_sparse_moe.gate.weight")
              false) /\
    Forall (fun w => is_embed w = false) ws.
Proof.
  intros HE. eexists. split.
  { simpl. unfold MixtralTensorNames.layer_weights.
    rewrite mistral_prefix. simpl. reflexivity. }
  set (prefix := "model.layers." +:+ str index).
  assert (Hthree : forall e, length (MixtralTensorNames.expert_names prefix e) = 3%nat)
    by done.
  assert (Hlen : length (flat_map (MixtralTensorNames.expert_names prefix) (range E))
                 = (3 * Z.to_nat E)%nat).
  { rewrite (length_flat_map_triples _ _ Hthree).
    unfold range. by rewrite length_fmap, length_seq. }
  split; [|split; [|split]].
  - rewrite length_fmap, length_app, Hlen. simpl. lia.
  - intros e k param He Hk.
    assert (Hk3 : (k < 3)%nat) by (apply lookup_lt_Some in Hk; simpl in Hk; lia).
    rewrite list_lookup_fmap, lookup_app_l by (rewrite Hlen; lia).
    rewrite (lookup_flat_map_triples _ _ _ _ Hthree Hk3).
    rewrite (range_lookup E e He). simpl.
    unfold MixtralTensorNames.expert_names. rewrite list_lookup_fmap, Hk. simpl.
    reflexivity.
  - rewrite list_lookup_fmap, lookup_app_r by (rewrite Hlen; lia).
    rewrite Hlen, Nat.sub_diag. simpl.
    reflexivity.
  - apply Forall_fmap, Forall_app. split.
    + apply Forall_forall. intros n Hn%list_elem_of_In.
      apply in_flat_map in Hn as (e & _ & Hn).
      unfold MixtralTensorNames.expert_names in Hn.
      rewrite <- list_elem_of_In, list_elem_of_fmap in Hn. destruct Hn as (param & -> & _).
      reflexivity.
    + by repeat constructor.
Qed.

Lemma mixtral_layer_weights_witness :
  exists ws,
    layer_weights {| MixtralTensorNames.num_local_experts := 8 |} 3 = Ok (Some ws) /\
    Z.of_nat (length ws) = 25 /\
    Forall (fun w => is_embed w = false) ws.
Proof.
  destruct (mixtral_layer_weights 8 3) as (ws & Hws & Hlen & _ & _ & Hemb); [lia|].
  exists ws. split; [exact Hws|]. split; [exact Hlen|exact Hemb].
Defined.

(** ** Layer names *)

Lemma str_not_dot (n : Z) : all_chars not_dot (str n) = true.
Proof.
  apply (all_chars_impl sign_or_digit); [|apply str_chars].
  intros c Hc. unfold not_dot.
  destruct (Ascii.eqb_spec c "."); [subst; done|done].
Qed.

Lemma dot_cut (a b s t : string) :
  all_chars not_dot a = true -> all_chars not_dot b = true ->
  a +:+ "." +:+ s = b +:+ "." +:+ t -> a = b /\ s = t.
Proof.
  revert b. induction a as [|c a IH]; intros [|c' b] Ha Hb E.
  - by injection E.
  - rewrite append_cons in E. injection E as <- _. done.
  - rewrite append_cons in E. injection E as -> _. done.
  - rewrite !append_cons in E. injection E as -> E.
    simpl in Ha, Hb. apply andb_prop in Ha as [_ Ha], Hb as [_ Hb].
    destruct (IH b Ha Hb E) as [-> ->]. done.
Qed.

(** Names built from the same literal identify their layer and suffix. *)
Lemma layer_name_inj (lit s t : string) (i j : Z) :
  (lit +:+ str i) +:+ "." +:+ s = (lit +:+ str j) +:+ "." +:+ t ->
  i = j /\ s = t.
Proof.
  rewrite !append_assoc. intros E%(inj (String.append lit)).
  destruct (dot_cut _ _ _ _ (str_not_dot i) (str_not_dot j) E) as [Hij ->].
  split; [by apply str_inj|done].
Qed.

(** ** Counting occurrences *)

Section occurrences.
Context {B : Type} `{EqDecision B}.
Implicit Types (x : B) (l : list B).

Lemma occurrences_app x l1 l2 :
  occurrences x (l1 ++ l2) = (occurrences x l1 + occurrences x l2)%nat.
Proof. unfold occurrences. by rewrite filter_app, length_app. Qed.

Lemma occurrences_absent x l : ~ In x l -> occurrences x l = 0%nat.
Proof.
  unfold occurrences. induction l as [|y l IH]; [done|]. intros Hin.
  rewrite filter_cons. destruct (decide (y = x)) as [->|_].
  - destruct Hin. by left.
  - apply IH. intros ?. apply Hin. by right.
Qed.

Lemma occurrences_fmap_inj {C : Type} `{EqDecision C} (g : C -> B) (c : C)
    (l : list C) :
  (forall c1 c2, g c1 = g c2 -> c1 = c2) ->
  occurrences (g c) (g <$> l) = occurrences c l.
Proof.
  intros Hg. unfold occurrences. induction l as [|y l IH]; [done|].
  rewrite fmap_cons, !filter_cons.
  destruct (decide (g y = g c)) as [E|E], (decide (y = c)) as [E'|E'];
    simpl; try (by rewrite IH).
  - destruct E'. by apply Hg.
  - destruct E. by rewrite E'.
Qed.

Lemma occurrences_concat_none (ls : Z -> list B) (x : B) (idxs : list Z) :
  (forall j, In j idxs -> occurrences x (ls j) = 0%nat) ->
  occurrences x (concat (ls <$> idxs)) = 0%nat.
Proof.
  induction idxs as [|j idxs IH]; [done|]. intros Hnone.
  rewrite fmap_cons. simpl. rewrite occurrences_app.
  rewrite (Hnone j) by (by left).
  rewrite IH; [done|]. intros k Hk. apply Hnone. by right.
Qed.

Lemma occurrences_concat_one (ls : Z -> list B) (x : B) (i : Z) (idxs : list Z) :
  NoDup idxs -> In i idxs ->
  (forall j, In j idxs -> j <> i -> occurrences x (ls j) = 0%nat) ->
  occurrences x (concat (ls <$> idxs)) = occurrences x (ls i).
Proof.
  induction 1 as [|k idxs Hk Hnd IH]; [done|]. intros Hi Hother.
  rewrite fmap_cons. simpl. rewrite occurrences_app.
  destruct (decide (k = i)) as [->|Hne].
  - rewrite occurrences_concat_none; [lia|].
    intros j Hj. apply Hother; [by right|].
    intros ->. by apply Hk, list_elem_of_In.
  - destruct Hi as [->|Hi]; [done|].
    rewrite (Hother k) by (done || by left).
    rewrite IH; [done|done|]. intros j Hj. apply Hother. by right.
Qed.
End occurrences.

Lemma range_NoDup (n : Z) : NoDup (range n).
Proof.
  unfold range. apply NoDup_fmap_2; [|apply NoDup_seq].
  intros a b. lia.
Qed.

Lemma range_member (n i : Z) : 0 <= i < n -> In i (range n).
Proof.
  intros Hi. apply list_elem_of_In, list_elem_of_lookup.
  exists (Z.to_nat i). by apply range_lookup.
Qed.

(** ** GPT-2 *)

Lemma gpt2_layer (i : Z) :
  layer_weights GPT2_INFO i = Ok (Some (suffixed GPT2_INFO ("h." +:+ str i))).
Proof. by apply layer_weights_formatted, format_literal_before_idx. Qed.

Lemma gpt2_entry (i : Z) (suffix : string) :
  StaticTensorNames._make_weightinfo GPT2_INFO (("h." +:+ str i) +:+ "." +:+ suffix)
  = weight_info ("h." +:+ str i +:+ "." +:+ suffix) false.
Proof.
  unfold StaticTensorNames._make_weightinfo. by rewrite append_assoc.
Qed.

Lemma gpt2_occurrences_in_layer (i j : Z) (suffix : string) :
  occurrences (weight_info ("h." +:+ str i +:+ "." +:+ suffix) false)
    (suffixed GPT2_INFO ("h." +:+ str j))
  = if decide (j = i)
    then occurrences suffix (StaticTensorNames.layer_weight_suffixes GPT2_INFO)
    else 0%nat.
Proof.
  rewrite <- gpt2_entry. destruct (decide (j = i)) as [->|Hne].
  - unfold suffixed.
    apply (occurrences_fmap_inj
             (fun s => StaticTensorNames._make_weightinfo GPT2_INFO
                         (("h." +:+ str i) +:+ "." +:+ s))).
    intros s t E. apply (f_equal name) in E. simpl in E.
    by apply layer_name_inj in E as [_ ?].
  - apply occurrences_absent. unfold suffixed.
    rewrite <- list_elem_of_In, list_elem_of_fmap. intros (t & E & _).
    apply (f_equal name) in E. simpl in E.
    apply layer_name_inj in E as [? _]. congruence.
Qed.

Lemma gpt2_not_outside_layers (i : Z) (suffix : string) :
  ~ In (weight_info ("h." +:+ str i +:+ "." +:+ suffix) false)
       (pre_weights GPT2_INFO ++ post_weights GPT2_INFO).
Proof.
  simpl. intros H. repeat (destruct H as [H|H]; [by injection H|]). done.
Qed.

(** C9. The GPT-2 suffix list holds [mlp.c_proj.weight] and
    [mlp.c_proj.bias] twice each. So does every list derived from it: for
    every layer index [layer_weights] returns the two entries twice, equal
    as values, and [all_weights] of a configuration with N layers holds the
    entries of each layer below N exactly twice. *)
Theorem gpt2_duplicated_suffixes :
  occurrences "mlp.c_proj.weight"
    (StaticTensorNames.layer_weight_suffixes GPT2_INFO) = 2%nat /\
  occurrences "mlp.c_proj.bias"
    (StaticTensorNames.layer_weight_suffixes GPT2_INFO) = 2%nat /\
  forall (i : Z) (suffix : string),
    suffix = "mlp.c_proj.weight" \/ suffix = "mlp.c_proj.bias" ->
    let entry := weight_info ("h." +:+ str i +:+ "." +:+ suffix) false in
    (exists ws, layer_weights GPT2_INFO i = Ok (Some ws) /\
                occurrences entry ws = 2%nat) /\
    (forall (config : PretrainedConfig) (N : Z),
        int_attrs config !! "n_layer" = Some N ->
        0 <= i < N ->
        exists ws, all_weights GPT2_INFO config = Ok ws /\
                   occurrences entry ws = 2%nat).
Proof.
  split; [reflexivity|]. split; [reflexivity|].
  intros i suffix Hsuffix entry.
  assert (Htwice : occurrences suffix
                     (StaticTensorNames.layer_weight_suffixes GPT2_INFO) = 2%nat)
    by (by destruct Hsuffix as [-> | ->]).
  split.
  - exists (suffixed GPT2_INFO ("h." +:+ str i)). split; [apply gpt2_layer|].
    unfold entry. rewrite gpt2_occurrences_in_layer.
    by destruct (decide (i = i)).
  - intros config N HN Hi.
    eexists. split.
    { apply (all_weights_ok GPT2_INFO config N
               (fun j => suffixed GPT2_INFO ("h." +:+ str j))).
      - change (num_layers_config_key GPT2_INFO) with "n_layer".
        unfold getattr. by rewrite HN.
      - intros j _. apply gpt2_layer. }
    pose proof (gpt2_not_outside_layers i suffix) as Hout.
    rewrite !occurrences_app.
    rewrite (occurrences_concat_one _ _ i).
    + unfold entry. rewrite gpt2_occurrences_in_layer.
      destruct (decide (i = i)); [|done].
      rewrite Htwice, !occurrences_absent; [lia| |].
      * intros ?. apply Hout, in_or_app. by right.
      * intros ?. apply Hout, in_or_app. by left.
    + apply range_NoDup.
    + by apply range_member.
    + intros j _ Hj. unfold entry. rewrite gpt2_occurrences_in_layer.
      by destruct (decide (j = i)).
Qed.

Lemma gpt2_duplicated_suffixes_witness :
  (exists ws, layer_weights GPT2_INFO 1 = Ok (Some ws) /\
              occurrences (weight_info "h.1.mlp.c_proj.weight" false) ws = 2%nat) /\
  (exists ws, all_weights GPT2_INFO (gpt2_config 2) = Ok ws /\
              occurrences (weight_info "h.1.mlp.c_proj.bias" false) ws = 2%nat).
Proof.
  split.
  - apply (proj1 (proj2 (proj2 gpt2_duplicated_suffixes) 1 "mlp.c_proj.weight"
                    (or_introl eq_refl))).
  - apply (proj2 (proj2 (proj2 gpt2_duplicated_suffixes) 1 "mlp.c_proj.bias"
                    (or_intror eq_refl)) (gpt2_config 2) 2).
    + reflexivity.
    + lia.
Defined.

(** ** Components of a layer name *)

Lemma split_dot_go_nonempty (cur s : string) : split_dot_go cur s <> [].
Proof.
  revert cur. induction s as [|c s IH]; intros cur; simpl; [done|].
  destruct (Ascii.eqb c "."); [done|apply IH].
Qed.

Lemma split_dot_go_app (cur s t : string) :
  split_dot_go cur (s +:+ t)
  = removelast (split_dot_go cur s)
      ++ split_dot_go (List.last (split_dot_go cur s) "") t.
Proof.
  revert cur. induction s as [|c s IH]; intros cur; [done|].
  rewrite append_cons. cbn [split_dot_go].
  destruct (Ascii.eqb c "."); [|apply IH].
  rewrite IH. pose proof (split_dot_go_nonempty "" s) as Hne.
  destruct (split_dot_go "" s) as [|x l] eqn:E; [done|reflexivity].
Qed.

Lemma split_dot_go_no_dot (cur a t : string) :
  all_chars not_dot a = true ->
  split_dot_go cur (a +:+ t) = split_dot_go (cur +:+ a) t.
Proof.
  revert cur. induction a as [|c a IH]; intros cur Ha.
  - by rewrite append_nil_r.
  - simpl in Ha. apply andb_prop in Ha as [Hc Ha].
    rewrite append_cons. cbn [split_dot_go].
    unfold not_dot in Hc. apply negb_true_iff in Hc. rewrite Hc.
    rewrite (IH _ Ha). f_equal. by rewrite append_assoc.
Qed.

Lemma split_dot_layer_name (lit suffix : string) (i : Z) :
  List.last (split_dot lit) "" = "" ->
  split_dot ((lit +:+ str i) +:+ "." +:+ suffix)
  = removelast (split_dot lit) ++ str i :: split_dot suffix.
Proof.
  intros Hlast. unfold split_dot.
  rewrite append_assoc, split_dot_go_app. fold (split_dot lit). rewrite Hlast.
  by rewrite (split_dot_go_no_dot "" (str i)) by apply str_not_dot.
Qed.

Lemma int_like_str (n : Z) : int_like (str n) = true.
Proof.
  unfold int_like. rewrite str_chars, andb_true_r.
  apply negb_true_iff, String.eqb_neq, str_nonempty.
Qed.

Lemma catalog_name_shape (d : StaticTensorNames.t) :
  In d static_catalog -> name_shape_ok d = true.
Proof.
  assert (H : forallb name_shape_ok static_catalog = true) by (vm_compute; reflexivity).
  rewrite forallb_forall in H. apply H.
Qed.

(** C8 (amended). For every static descriptor of the catalog and every
    layer index i, [layer_weights i] returns names that are the template
    formatted with i, a dot and a suffix: each name contains the formatted
    index i, has it as one of its dot-separated components, and has no
    component equal to the formatted index of another layer. *)
Theorem layer_names_carry_their_index (d : StaticTensorNames.t) (i : Z) :
  In d static_catalog ->
  exists (prefix : string) (ws : list WeightInfo),
    format_idx (StaticTensorNames.layer_prefix_format d) i = Ok prefix /\
    layer_weights d i = Ok (Some ws) /\
    name <$> ws
    = (fun suffix => prefix +:+ "." +:+ suffix)
        <$> StaticTensorNames.layer_weight_suffixes d /\
    forall w, In w ws ->
      contains (str i) (name w) = true /\
      In (str i) (split_dot (name w)) /\
      (forall j, j <> i -> ~ In (str j) (split_dot (name w))).
Proof.
  intros Hd. pose proof (catalog_name_shape d Hd) as Hshape.
  unfold name_shape_ok in Hshape.
  destruct (literal_before_idx (StaticTensorNames.layer_prefix_format d))
    as [lit|] eqn:Hlit; [|done].
  apply andb_prop in Hshape as [[Hlast%String.eqb_eq Hpre]%andb_prop Hsuf].
  rewrite forallb_forall in Hpre, Hsuf.
  pose proof (format_literal_before_idx _ lit i Hlit) as Hfmt.
  exists (lit +:+ str i), (suffixed d (lit +:+ str i)).
  split; [done|]. split; [by apply layer_weights_formatted|].
  split. { unfold suffixed. rewrite <- list_fmap_compose. done. }
  intros w Hw. unfold suffixed in Hw.
  rewrite <- list_elem_of_In, list_elem_of_fmap in Hw.
  destruct Hw as (suffix & -> & Hsuffix%list_elem_of_In). simpl.
  split; [|rewrite (split_dot_layer_name lit suffix i Hlast); split].
  - rewrite append_assoc. apply contains_middle.
  - apply in_or_app. right. by left.
  - intros j Hj [Hin|[Heq|Hin]]%in_app_or.
    + apply Hpre in Hin. by rewrite int_like_str in Hin.
    + by apply str_inj in Heq.
    + specialize (Hsuf suffix Hsuffix). rewrite forallb_forall in Hsuf.
      apply Hsuf in Hin. by rewrite int_like_str in Hin.
Qed.

Lemma layer_names_carry_their_index_witness :
  exists ws,
    layer_weights GPT2_INFO 0 = Ok (Some ws) /\
    forall w, In w ws ->
      In "0" (split_dot (name w)) /\ ~ In "1" (split_dot (name w)).
Proof.
  destruct (layer_names_carry_their_index GPT2_INFO 0)
    as (prefix & ws & _ & Hws & _ & Hnames).
  - in_catalog.
  - exists ws. split; [exact Hws|]. intros w Hw.
    destruct (Hnames w Hw) as (_ & Hown & Hother).
    split; [exact Hown|]. apply (Hother 1). discriminate.
Defined.

(** C8 as stated fails on the substring reading: the layer-0 name
    [h.0.ln_1.weight] of GPT-2 contains ["1"], the formatted index of
    layer 1. *)
Lemma layer_zero_name_contains_one : ~ names_hold_only_own_index.
Proof.
  intros Hclaim.
  destruct (Hclaim GPT2_INFO 0 1 (suffixed GPT2_INFO "h.0")
              (weight_info "h.0.ln_1.weight" false)) as [_ Hother].
  - in_catalog.
  - reflexivity.
  - vm_compute. tauto.
  - specialize (Hother ltac:(discriminate)). vm_compute in Hother. discriminate.
Qed.

(** * Further properties of the module *)

(** ** Dispatch: failures and what a success means *)

Lemma scan_supported_miss (arch_name : string) :
  ~ In arch_name table_names ->
  scan_supported arch_name
  = Raise (RuntimeError ("Unsupported architecture " +:+ arch_name)).
Proof.
  intros Hnot. unfold scan_supported.
  destruct (List.find _ supported) as [d|] eqn:Hfind; [|done].
  apply find_some in Hfind as [Hd Hname%String.eqb_eq].
  destruct Hnot. unfold table_names. rewrite <- Hname.
  apply list_elem_of_In, list_elem_of_fmap. exists d. split; [done|].
  by apply list_elem_of_In.
Qed.

Lemma scan_supported_hit (arch_name : string) (a : Architecture) :
  scan_supported arch_name = Ok a ->
  exists d, a = Static d /\ In d supported /\ StaticTensorNames.name d = arch_name.
Proof.
  unfold scan_supported.
  destruct (List.find _ supported) as [d|] eqn:Hfind; [|done].
  intros [= <-]. apply find_some in Hfind as [Hd Hname%String.eqb_eq]. eauto.
Qed.

(** X1. A configuration declaring exactly one name that belongs to no
    cataloged descriptor is refused with the RuntimeError
    "Unsupported architecture <name>", whatever else it holds. *)
Theorem dispatch_unsupported (config : PretrainedConfig) (arch_name : string) :
  architectures config = [arch_name] ->
  ~ In arch_name supported_names ->
  get_architecture_info config
  = Raise (RuntimeError ("Unsupported architecture " +:+ arch_name)).
Proof.
  intros Harch Hnot. rewrite (dispatch_single config _ Harch).
  assert (Hne : forall n, In n supported_names -> String.eqb arch_name n = false).
  { intros n Hn. apply String.eqb_neq. by intros ->. }
  rewrite !Hne; [| |by right; left|by left].
  - apply scan_supported_miss. intros Hin. apply Hnot.
    unfold supported_names, static_catalog. right. right.
    rewrite fmap_app. apply in_or_app. by left.
  - unfold supported_names, static_catalog, supported. simpl. tauto.
Qed.

Lemma dispatch_unsupported_witness :
  get_architecture_info unknown_config
  = Raise (RuntimeError "Unsupported architecture BertForMaskedLM").
Proof.
  apply (dispatch_unsupported unknown_config "BertForMaskedLM").
  - reflexivity.
  - vm_compute. intuition discriminate.
Defined.

(** What a successful dispatch can be. *)
Lemma dispatch_cases (config : PretrainedConfig) (a : Architecture) :
  get_architecture_info config = Ok a ->
  exists arch_name,
    architectures config = [arch_name] /\
    identity a = arch_name /\
    ((exists d, a = Static d /\ In d static_catalog) \/
     (exists E, a = Mixtral {| MixtralTensorNames.num_local_experts := E |} /\
                int_attrs config !! "num_local_experts" = Some E)).
Proof.
  intros Hget.
  destruct (architectures config) as [|arch_name [|other rest]] eqn:Harch;
    try (rewrite dispatch_not_single in Hget by (rewrite Harch; simpl; lia); done).
  exists arch_name. split; [done|].
  rewrite (dispatch_single config _ Harch) in Hget.
  destruct (String.eqb_spec arch_name PhiTensorNames.ARCHITECTURE_NAME); [done|].
  destruct (String.eqb_spec arch_name MixtralTensorNames.ARCHITECTURE_NAME) as [Hmix|_].
  { unfold MixtralTensorNames.from_config, getattr in Hget.
    destruct (int_attrs config !! "num_local_experts") as [E|] eqn:HE; [|done].
    injection Hget as <-. split; [by rewrite Hmix|]. right. by exists E. }
  assert (Hscan : scan_supported arch_name = Ok a ->
                  identity a = arch_name /\
                  ((exists d, a = Static d /\ In d static_catalog) \/
                   (exists E, a = Mixtral {| MixtralTensorNames.num_local_experts := E |} /\
                              int_attrs config !! "num_local_experts" = Some E))).
  { intros (d & -> & Hd & Hname)%scan_supported_hit. split; [done|].
    left. exists d. split; [done|]. unfold static_catalog. apply in_or_app. by left. }
  destruct (String.eqb_spec arch_name "PhiForCausalLM") as [Hphi|_]; [|by apply Hscan].
  destruct (String.eqb (model_type config) "phi-msft").
  { injection Hget as <-. split; [by rewrite Hphi|].
    left. eexists. split; [done|]. in_catalog. }
  destruct (String.eqb (model_type config) "phi"); [|by apply Hscan].
  injection Hget as <-. split; [by rewrite Hphi|].
  left. eexists. split; [done|]. in_catalog.
Qed.

(** X2. Whenever [get_architecture_info] returns a descriptor, the
    configuration declared exactly one name and the descriptor answers to
    it; the descriptor is a static one of the catalog, or the Mixtral
    descriptor carrying the configuration's expert count, and never a
    [PhiTensorNames]. *)
Theorem dispatch_sound (config : PretrainedConfig) (a : Architecture) :
  get_architecture_info config = Ok a ->
  exists arch_name,
    architectures config = [arch_name] /\
    identity a = arch_name /\
    ((exists d, a = Static d /\ In d static_catalog) \/
     (exists E, a = Mixtral {| MixtralTensorNames.num_local_experts := E |} /\
                int_attrs config !! "num_local_experts" = Some E)).
Proof. apply dispatch_cases. Qed.

Lemma dispatch_sound_witness :
  exists arch_name,
    architectures (mixtral_config 8) = [arch_name] /\
    identity (Mixtral {| MixtralTensorNames.num_local_experts := 8 |}) = arch_name.
Proof.
  destruct (dispatch_sound (mixtral_config 8)
              (Mixtral {| MixtralTensorNames.num_local_experts := 8 |}) eq_refl)
    as (arch_name & Harch & Hid & _).
  exists arch_name. split; [exact Harch|exact Hid].
Defined.

(** X3. Every descriptor of the scanned table is returned for its own
    name: no entry is shadowed by an earlier one, by a computed layout or
    by the shared-name branch. *)
Theorem dispatch_table_round_trip (d : StaticTensorNames.t)
    (config : PretrainedConfig) :
  In d supported ->
  architectures config = [StaticTensorNames.name d] ->
  get_architecture_info config = Ok (Static d).
Proof.
  intros Hd Harch. rewrite (dispatch_single config _ Harch).
  unfold supported in Hd. simpl in Hd.
  repeat (destruct Hd as [<-|Hd]; [reflexivity|]). done.
Qed.

Lemma dispatch_table_round_trip_witness :
  get_architecture_info (gpt2_config 12) = Ok (Static GPT2_INFO).
Proof.
  apply (dispatch_table_round_trip GPT2_INFO (gpt2_config 12)).
  - unfold supported. simpl. tauto.
  - reflexivity.
Defined.

(** X4. A configuration declaring [["MixtralForCausalLM"]] without the
    [num_local_experts] attribute makes dispatch raise the AttributeError
    of that attribute; with it, the descriptor carries exactly that
    count. *)
Theorem dispatch_mixtral (config : PretrainedConfig) :
  architectures config = [MixtralTensorNames.ARCHITECTURE_NAME] ->
  get_architecture_info config
  = match int_attrs config !! "num_local_experts" with
    | Some E => Ok (Mixtral {| MixtralTensorNames.num_local_experts := E |})
    | None => Raise (AttributeError "num_local_experts")
    end.
Proof.
  intros Harch. rewrite (dispatch_single config _ Harch). simpl.
  unfold MixtralTensorNames.from_config, getattr.
  by destruct (int_attrs config !! "num_local_experts").
Qed.

Lemma dispatch_mixtral_witness :
  get_architecture_info mixtral_config_without_experts
  = Raise (AttributeError "num_local_experts").
Proof. apply (dispatch_mixtral mixtral_config_without_experts). reflexivity. Defined.

(** ** [all_weights]: edge cases of the layer loop *)

Lemma range_nonpositive (n : Z) : n <= 0 -> range n = [].
Proof. intros Hn. unfold range. by replace (Z.to_nat n) with 0%nat by lia. Qed.

Lemma range_split (n i : Z) :
  0 <= i < n -> exists rest, range n = range i ++ i :: rest.
Proof.
  intros Hi. unfold range.
  replace (Z.to_nat n) with (Z.to_nat i + S (Z.to_nat n - S (Z.to_nat i)))%nat by lia.
  rewrite seq_app, fmap_app. simpl.
  eexists. f_equal. f_equal. lia.
Qed.

Lemma extend_layers_prefix (lw : Z -> result (option (list WeightInfo)))
    (l1 l2 : list Z) (res : list WeightInfo) :
  (forall j, In j l1 -> layer_failure (lw j) = None) ->
  exists res', extend_layers lw (l1 ++ l2) res = extend_layers lw l2 res'.
Proof.
  revert res. induction l1 as [|j l1 IH]; intros res Hok; [by exists res|].
  simpl. pose proof (Hok j (or_introl eq_refl)) as Hj.
  destruct (lw j) as [[ws|]|e]; try done.
  apply IH. intros k Hk. apply Hok. by right.
Qed.

(** X5. A layer count that is zero or negative is not an error: the loop
    runs no iteration and [all_weights] returns the pre-weights followed by
    the post-weights, without a single call to [layer_weights]. *)
Theorem all_weights_nonpositive_layer_count {A : Type} `{ArchitectureInfo A}
    (self : A) (config : PretrainedConfig) (N : Z) :
  getattr config (num_layers_config_key self) = Ok N ->
  N <= 0 ->
  all_weights self config = Ok (pre_weights self ++ post_weights self).
Proof.
  intros HN Hneg. unfold all_weights, num_layers. rewrite HN. simpl.
  by rewrite range_nonpositive.
Qed.

Lemma all_weights_nonpositive_layer_count_witness :
  all_weights LLAMA_INFO negative_layers_config
  = Ok (pre_weights LLAMA_INFO ++ post_weights LLAMA_INFO).
Proof.
  apply (all_weights_nonpositive_layer_count LLAMA_INFO negative_layers_config (-3)).
  - reflexivity.
  - lia.
Defined.

(** X6. [all_weights] returns no partial list. If the layers below i all
    return lists and layer i (below the layer count) returns [None] or
    raises, the whole call raises: [TypeError] for [None], the layer's own
    exception otherwise. *)
Theorem all_weights_layer_failure {A : Type} `{ArchitectureInfo A}
    (self : A) (config : PretrainedConfig) (N i : Z) (e : exn) :
  getattr config (num_layers_config_key self) = Ok N ->
  0 <= i < N ->
  (forall j, 0 <= j < i -> layer_failure (layer_weights self j) = None) ->
  layer_failure (layer_weights self i) = Some e ->
  all_weights self config = Raise e.
Proof.
  intros HN Hi Hbelow Hfail. unfold all_weights, num_layers. rewrite HN. simpl.
  destruct (range_split N i Hi) as [rest ->].
  destruct (extend_layers_prefix (layer_weights self) (range i) (i :: rest)
              (pre_weights self)) as [res' ->].
  { intros j Hj%range_bounds. by apply Hbelow. }
  simpl. by destruct (layer_weights self i) as [[ws|]|e']; simplify_eq/=.
Qed.

Lemma all_weights_layer_failure_witness :
  all_weights broken_template_info llama_config_2 = Raise ValueError.
Proof.
  apply (all_weights_layer_failure broken_template_info llama_config_2 2 0).
  - reflexivity.
  - lia.
  - intros j Hj. lia.
  - reflexivity.
Defined.

(** ** [all_weights] on the descriptors dispatch returns *)

Lemma all_weights_missing_attribute {A : Type} `{ArchitectureInfo A}
    (self : A) (config : PretrainedConfig) :
  int_attrs config !! num_layers_config_key self = None ->
  all_weights self config = Raise (AttributeError (num_layers_config_key self)).
Proof. intros HN. unfold all_weights, num_layers, getattr. by rewrite HN. Qed.

Lemma all_weights_uniform {A : Type} `{ArchitectureInfo A}
    (self : A) (config : PretrainedConfig) (N : Z) (S : nat) :
  getattr config (num_layers_config_key self) = Ok N ->
  (forall i, 0 <= i < N ->
     exists l, layer_weights self i = Ok (Some l) /\ length l = S) ->
  exists ws,
    all_weights self config = Ok ws /\
    length ws
    = (length (pre_weights self) + Z.to_nat N * S + length (post_weights self))%nat.
Proof.
  intros HN Hlayers.
  set (ls := fun i => match layer_weights self i with
                      | Ok (Some l) => l
                      | _ => []
                      end).
  assert (Hls : forall i, 0 <= i < N ->
                  layer_weights self i = Ok (Some (ls i)) /\ length (ls i) = S).
  { intros i Hi. destruct (Hlayers i Hi) as (l & Hl & Hlen).
    unfold ls. by rewrite Hl. }
  eexists. split.
  { apply (all_weights_ok self config N ls HN). intros i Hi. by apply Hls. }
  rewrite !length_app, (length_concat_uniform _ S).
  - unfold range. rewrite !length_fmap, length_seq. lia.
  - apply Forall_fmap, Forall_forall. intros i Hi%list_elem_of_In%range_bounds.
    simpl. by apply Hls.
Qed.

Lemma mixtral_layer_length (m : MixtralTensorNames.t) (index : Z) :
  exists l,
    layer_weights m index = Ok (Some l) /\
    length l = (3 * Z.to_nat (MixtralTensorNames.num_local_experts m) + 1)%nat.
Proof.
  eexists. split.
  { simpl. unfold MixtralTensorNames.layer_weights.
    rewrite mistral_prefix. simpl. reflexivity. }
  rewrite length_fmap, length_app, length_flat_map_triples by done.
  unfold range. rewrite length_fmap, length_seq. simpl. lia.
Qed.

Lemma dispatched_layer_length (config : PretrainedConfig) (a : Architecture)
    (index : Z) :
  get_architecture_info config = Ok a ->
  exists l, layer_weights a index = Ok (Some l) /\ length l = per_layer a.
Proof.
  intros (arch_name & _ & _ & [(d & -> & Hd)|(E & -> & _)])%dispatch_cases.
  - destruct (layer_weights_valid d index (catalog_templates_ok d Hd))
      as (prefix & _ & Hw).
    exists (suffixed d prefix). split; [exact Hw|apply length_suffixed].
  - apply (mixtral_layer_length {| MixtralTensorNames.num_local_experts := E |}).
Qed.

(** X7. On a descriptor returned by [get_architecture_info], [all_weights]
    fails only for want of the layer-count attribute (AttributeError naming
    the descriptor's key). With the attribute holding N it returns as many
    entries as pre-weights, plus N (zero if negative) times the layer's
    entries (one per suffix; 3 per expert plus the gate for Mixtral), plus
    post-weights. *)
Theorem dispatched_all_weights (config : PretrainedConfig) (a : Architecture) :
  get_architecture_info config = Ok a ->
  match int_attrs config !! num_layers_config_key a with
  | Some N =>
      exists ws,
        all_weights a config = Ok ws /\
        length ws
        = (length (pre_weights a) + Z.to_nat N * per_layer a
           + length (post_weights a))%nat
  | None => all_weights a config = Raise (AttributeError (num_layers_config_key a))
  end.
Proof.
  intros Hget.
  destruct (int_attrs config !! num_layers_config_key a) as [N|] eqn:HN.
  - apply (all_weights_uniform a config N (per_layer a)).
    + unfold getattr. by rewrite HN.
    + intros i _. by apply (dispatched_layer_length config).
  - by apply all_weights_missing_attribute.
Qed.

Lemma dispatched_all_weights_witness :
  (exists ws,
      all_weights (Mixtral {| MixtralTensorNames.num_local_experts := 8 |})
        (mixtral_config 8) = Ok ws /\
      length ws = (1 + 32 * 25 + 2)%nat) /\
  all_weights (Static GPT2_INFO) config_without_layer_count
  = Raise (AttributeError "n_layer").
Proof.
  split.
  - apply (dispatched_all_weights (mixtral_config 8)
             (Mixtral {| MixtralTensorNames.num_local_experts := 8 |}) eq_refl).
  - apply (dispatched_all_weights config_without_layer_count (Static GPT2_INFO) eq_refl).
Defined.

(** ** What the returned weights look like *)

Lemma int_component_not_plain (n : string) (i : Z) :
  In (str i) (split_dot n) -> no_int_component n = false.
Proof.
  intros Hin. destruct (no_int_component n) eqn:Hplain; [|done].
  unfold no_int_component in Hplain. rewrite forallb_forall in Hplain.
  apply Hplain in Hin. by rewrite int_like_str in Hin.
Qed.

Lemma catalog_outside_plain (d : StaticTensorNames.t) :
  In d static_catalog -> outside_names_plain d = true.
Proof.
  assert (H : forallb outside_names_plain static_catalog = true)
    by (vm_compute; reflexivity).
  rewrite forallb_forall in H. apply H.
Qed.

Lemma layer_name_component (lit suffix : string) (i : Z) :
  List.last (split_dot lit) "" = "" ->
  In (str i) (split_dot ((lit +:+ str i) +:+ "." +:+ suffix)).
Proof.
  intros Hlast. rewrite (split_dot_layer_name lit suffix i Hlast).
  apply in_or_app. right. by left.
Qed.

(** The literal in front of the index, common to all layers of a catalog
    descriptor. *)
Lemma catalog_literal (d : StaticTensorNames.t) :
  In d static_catalog ->
  exists lit,
    List.last (split_dot lit) "" = "" /\
    forall i, layer_weights d i = Ok (Some (suffixed d (lit +:+ str i))).
Proof.
  intros Hd. pose proof (catalog_name_shape d Hd) as Hshape.
  unfold name_shape_ok in Hshape.
  destruct (literal_before_idx (StaticTensorNames.layer_prefix_format d))
    as [lit|] eqn:Hlit; [|done].
  apply andb_prop in Hshape as [[Hlast%String.eqb_eq _]%andb_prop _].
  exists lit. split; [done|].
  intros i. by apply layer_weights_formatted, format_literal_before_idx.
Qed.

Lemma str_in_true (x : string) (xs : list string) :
  str_in x xs = true -> In x xs.
Proof.
  unfold str_in. rewrite existsb_exists.
  by intros (y & Hy & ->%String.eqb_eq).
Qed.

Lemma mixtral_layer_not_embed (m : MixtralTensorNames.t) (index : Z)
    (ws : list WeightInfo) :
  layer_weights m index = Ok (Some ws) ->
  Forall (fun w => is_embed w = false) ws.
Proof.
  simpl. unfold MixtralTensorNames.layer_weights.
  rewrite mistral_prefix. simpl. intros [= <-].
  apply Forall_fmap, Forall_app. split.
  - apply Forall_forall. intros n Hn%list_elem_of_In.
    apply in_flat_map in Hn as (e & _ & Hn).
    unfold MixtralTensorNames.expert_names in Hn.
    rewrite <- list_elem_of_In, list_elem_of_fmap in Hn.
    destruct Hn as (param & -> & _). reflexivity.
  - by repeat constructor.
Qed.

(** X8. On a descriptor returned by [get_architecture_info], no weight of
    any layer, at any index, is flagged as an embedding weight: the flag
    can only sit on pre-weights and post-weights. *)
Theorem dispatched_layers_not_embed (config : PretrainedConfig)
    (a : Architecture) (index : Z) (ws : list WeightInfo) :
  get_architecture_info config = Ok a ->
  layer_weights a index = Ok (Some ws) ->
  Forall (fun w => is_embed w = false) ws.
Proof.
  intros (arch_name & _ & _ & [(d & -> & Hd)|(E & -> & _)])%dispatch_cases Hws.
  - destruct (catalog_literal d Hd) as (lit & Hlast & Hlayer).
    change (layer_weights (Static d) index) with (layer_weights d index) in Hws.
    rewrite Hlayer in Hws. injection Hws as <-.
    unfold suffixed. apply Forall_fmap, Forall_forall. intros suffix _. simpl.
    destruct (str_in _ _) eqn:Hin; [|done].
    apply str_in_true in Hin.
    pose proof (catalog_outside_plain d Hd) as Hplain.
    unfold outside_names_plain in Hplain. rewrite forallb_forall in Hplain.
    pose proof (int_component_not_plain _ index
                  (layer_name_component lit suffix index Hlast)) as Hfalse.
    rewrite Hplain in Hfalse; [done|].
    apply in_or_app. right. apply in_or_app. by right.
  - by apply (mixtral_layer_not_embed
                {| MixtralTensorNames.num_local_experts := E |} index).
Qed.

Lemma dispatched_layers_not_embed_witness :
  Forall (fun w => is_embed w = false) (suffixed PHI2_INFO "transformer.h.7").
Proof.
  apply (dispatched_layers_not_embed (phi_config "phi-msft") (Static PHI2_INFO) 7).
  - reflexivity.
  - reflexivity.
Defined.

Lemma weight_info_plain (n : string) (e : bool) : plain_fields (weight_info n e).
Proof. by repeat split. Qed.

Lemma static_loop_invariant (P : WeightInfo -> Prop) (d : StaticTensorNames.t)
    (index : Z) (suffixes : list string) (res ws : list WeightInfo) :
  (forall n, P (StaticTensorNames._make_weightinfo d n)) ->
  Forall P res ->
  StaticTensorNames.layer_weights_loop d index suffixes res = Ok ws ->
  Forall P ws.
Proof.
  intros Hmake. revert res.
  induction suffixes as [|suffix suffixes IH]; intros res Hres; simpl.
  - by intros [= <-].
  - destruct (format_idx _ index) as [prefix|]; [|done]. simpl.
    apply IH. apply Forall_app. split; [done|]. by repeat constructor.
Qed.

Lemma extend_layers_invariant (P : WeightInfo -> Prop)
    (lw : Z -> result (option (list WeightInfo))) (idxs : list Z)
    (res ws : list WeightInfo) :
  (forall i l, lw i = Ok (Some l) -> Forall P l) ->
  Forall P res ->
  extend_layers lw idxs res = Ok ws ->
  Forall P ws.
Proof.
  intros Hlw. revert res.
  induction idxs as [|i idxs IH]; intros res Hres; simpl.
  - by intros [= <-].
  - destruct (lw i) as [[l|]|e] eqn:Hi; try done.
    apply IH. apply Forall_app. split; [done|]. by apply (Hlw i).
Qed.

Lemma layer_weights_plain (a : Architecture) (index : Z) (ws : list WeightInfo) :
  layer_weights a index = Ok (Some ws) -> Forall plain_fields ws.
Proof.
  destruct a as [d|m|p]; simpl.
  - unfold StaticTensorNames.layer_weights.
    destruct (StaticTensorNames.layer_weights_loop d index _ []) as [l|] eqn:Hloop;
      [|done].
    intros [= <-]. eapply (static_loop_invariant plain_fields d index);
      [intros n; apply weight_info_plain| |exact Hloop]. constructor.
  - unfold MixtralTensorNames.layer_weights.
    destruct (format_idx _ index) as [prefix|]; [|done]. simpl. intros [= <-].
    apply Forall_fmap, Forall_forall. intros n _. apply weight_info_plain.
  - unfold PhiTensorNames.layer_weights. intros [= <-].
    repeat (constructor; [apply weight_info_plain|]). constructor.
Qed.

Lemma outside_weights_plain (a : Architecture) :
  Forall plain_fields (pre_weights a) /\ Forall plain_fields (post_weights a).
Proof.
  destruct a as [d|m|p]; simpl; split;
    try (apply Forall_fmap, Forall_forall; intros n _; apply weight_info_plain).
  repeat constructor; apply weight_info_plain.
Qed.

(** X9. Whatever descriptor class and configuration, every entry that
    [all_weights] returns leaves [input_space], [output_space] and [aliases]
    unset and has [optional] false: the module never marks a weight as
    optional and never names a space or an alias. *)
Theorem all_weights_plain_fields (a : Architecture) (config : PretrainedConfig)
    (ws : list WeightInfo) :
  all_weights a config = Ok ws -> Forall plain_fields ws.
Proof.
  unfold all_weights. destruct (num_layers a config) as [N|]; [|done]. simpl.
  destruct (extend_layers _ _ _) as [res|] eqn:Hloop; [|done]. simpl.
  intros [= <-]. destruct (outside_weights_plain a) as [Hpre Hpost].
  apply Forall_app. split; [|done].
  apply (extend_layers_invariant plain_fields _ _ _ _ (layer_weights_plain a) Hpre Hloop).
Qed.

Lemma all_weights_plain_fields_witness :
  exists ws,
    all_weights (Phi {| PhiTensorNames.n_layer := 24 |}) mixformer_config = Ok ws /\
    Forall plain_fields ws.
Proof.
  eexists. split; [reflexivity|].
  apply (all_weights_plain_fields (Phi {| PhiTensorNames.n_layer := 24 |})
           mixformer_config).
  reflexivity.
Defined.

(** ** Distinct tensor names *)

Section layered_names.
Variable nm : Z -> string -> string.
Hypothesis nm_inj : forall i j s t, nm i s = nm j t -> i = j /\ s = t.

Lemma elem_of_layered (x : string) (suffixes : list string) (idxs : list Z) :
  x ∈ concat ((fun i => nm i <$> suffixes) <$> idxs) <->
  exists i s, i ∈ idxs /\ s ∈ suffixes /\ x = nm i s.
Proof.
  induction idxs as [|i idxs IH]; simpl.
  - split; [by intros ?%elem_of_nil|]. by intros (i & s & ?%elem_of_nil & _).
  - rewrite elem_of_app, IH, list_elem_of_fmap. split.
    + intros [(s & -> & Hs)|(j & s & Hj & Hs & ->)].
      * exists i, s. split; [by left|done].
      * exists j, s. split; [by right|done].
    + intros (j & s & [->|Hj]%elem_of_cons & Hs & ->).
      * left. by exists s.
      * right. by exists j, s.
Qed.

Lemma NoDup_layered (suffixes : list string) (idxs : list Z) :
  NoDup suffixes -> NoDup idxs ->
  NoDup (concat ((fun i => nm i <$> suffixes) <$> idxs)).
Proof.
  intros Hsuf. induction 1 as [|i idxs Hi Hidxs IH]; simpl; [constructor|].
  apply NoDup_app. split; [|split; [|done]].
  - apply NoDup_fmap_2_strong; [|done].
    intros s t _ _ E. by apply nm_inj in E as [_ ?].
  - intros x (s & -> & _)%list_elem_of_fmap (j & t & Hj & _ & E)%elem_of_layered.
    apply nm_inj in E as [-> _]. done.
Qed.
End layered_names.

Lemma fmap_concat {B C : Type} (f : B -> C) (ls : list (list B)) :
  f <$> concat ls = concat ((fun l : list B => f <$> l) <$> ls).
Proof.
  induction ls as [|l ls IH]; [done|]. simpl. by rewrite fmap_app, IH.
Qed.

Lemma static_outside_names (d : StaticTensorNames.t) :
  name <$> pre_weights d = StaticTensorNames.pre_weight_names d /\
  name <$> post_weights d = StaticTensorNames.post_weight_names d.
Proof.
  simpl. unfold StaticTensorNames.pre_weights, StaticTensorNames.post_weights.
  rewrite <- !list_fmap_compose. split; apply list_fmap_id.
Qed.

Lemma catalog_outside_distinct (d : StaticTensorNames.t) :
  In d static_catalog ->
  NoDup (StaticTensorNames.pre_weight_names d
           ++ StaticTensorNames.post_weight_names d).
Proof.
  assert (H : forallb (fun d => bool_decide
                         (NoDup (StaticTensorNames.pre_weight_names d
                                   ++ StaticTensorNames.post_weight_names d)))
                static_catalog = true) by (vm_compute; reflexivity).
  rewrite forallb_forall in H. intros Hd. apply H in Hd.
  by apply bool_decide_eq_true in Hd.
Qed.

(** Names laid out as pre-names, then per layer the literal, the index, a
    dot and each suffix, then post-names. *)
Lemma layout_names_distinct (pre post suffixes : list string) (lit : string)
    (N : Z) :
  List.last (split_dot lit) "" = "" ->
  NoDup (pre ++ post) ->
  forallb no_int_component (pre ++ post) = true ->
  NoDup suffixes ->
  NoDup (pre
           ++ concat ((fun i => (fun s => (lit +:+ str i) +:+ "." +:+ s) <$> suffixes)
                        <$> range N)
           ++ post).
Proof.
  intros Hlast (Hpre_nd & Hpre_post & Hpost_nd)%NoDup_app Hplain Hsuf.
  rewrite forallb_forall in Hplain.
  set (nm := fun (i : Z) (s : string) => (lit +:+ str i) +:+ "." +:+ s).
  assert (Hinj : forall i j s t, nm i s = nm j t -> i = j /\ s = t)
    by (intros i j s t; apply layer_name_inj).
  assert (Hlayer_name : forall x,
             x ∈ concat ((fun i => nm i <$> suffixes) <$> range N) ->
             no_int_component x = false).
  { intros x (i & s & _ & _ & ->)%(elem_of_layered nm).
    by apply (int_component_not_plain _ i), layer_name_component. }
  apply NoDup_app. split; [done|]. split.
  - intros x Hx [Hin|Hin]%elem_of_app.
    + apply Hlayer_name in Hin. rewrite Hplain in Hin; [done|].
      apply in_or_app. left. by apply list_elem_of_In.
    + by apply (Hpre_post x).
  - apply NoDup_app. split; [|split; [|done]].
    + apply (NoDup_layered nm Hinj); [done|apply range_NoDup].
    + intros x Hx%Hlayer_name Hin. rewrite Hplain in Hx; [done|].
      apply in_or_app. right. by apply list_elem_of_In.
Qed.

(** X10. For a catalog descriptor whose suffix list has no repeats (all of
    them but the two GPT-2 ones), the tensor names that [all_weights]
    returns are pairwise distinct, for every layer count: no name is shared
    between two layers, nor between a layer and the pre- or post-weights. *)
Theorem catalog_names_distinct (d : StaticTensorNames.t)
    (config : PretrainedConfig) (N : Z) :
  In d static_catalog ->
  NoDup (StaticTensorNames.layer_weight_suffixes d) ->
  int_attrs config !! num_layers_config_key d = Some N ->
  exists ws, all_weights d config = Ok ws /\ NoDup (name <$> ws).
Proof.
  intros Hd Hsuf HN.
  destruct (catalog_literal d Hd) as (lit & Hlast & Hlayer).
  eexists. split.
  { apply (all_weights_ok d config N (fun i => suffixed d (lit +:+ str i))).
    - unfold getattr. by rewrite HN.
    - intros i _. apply Hlayer. }
  destruct (static_outside_names d) as [Hpre Hpost].
  rewrite !fmap_app, fmap_concat, Hpre, Hpost, <- list_fmap_compose.
  assert (Hnames : ((fun l : list WeightInfo => name <$> l)
                      ∘ (fun i => suffixed d (lit +:+ str i))) <$> range N
                   = (fun i => (fun s => (lit +:+ str i) +:+ "." +:+ s)
                                 <$> StaticTensorNames.layer_weight_suffixes d)
                       <$> range N).
  { apply list_fmap_ext. intros _ i _. unfold compose, suffixed.
    by rewrite <- list_fmap_compose. }
  rewrite Hnames. clear Hnames.
  apply layout_names_distinct; [done|by apply catalog_outside_distinct| |done].
  pose proof (catalog_outside_plain d Hd) as Hplain.
  unfold outside_names_plain in Hplain.
  rewrite app_assoc, forallb_app in Hplain. by apply andb_prop in Hplain as [? _].
Qed.

Lemma catalog_names_distinct_witness :
  exists ws, all_weights LLAMA_INFO llama_config_2 = Ok ws /\ NoDup (name <$> ws).
Proof.
  apply (catalog_names_distinct LLAMA_INFO llama_config_2 2).
  - in_catalog.
  - apply (proj1 (bool_decide_eq_true _)). vm_compute. reflexivity.
  - reflexivity.
Defined.

(** ** PhiTensorNames *)

Lemma phi_layer_name (i : Z) (suffix : string) :
  ("layers." +:+ str i +:+ ".") +:+ suffix
  = ("layers." +:+ str i) +:+ "." +:+ suffix.
Proof. by rewrite !append_assoc. Qed.

Lemma phi_post_name (i : Z) (suffix : string) :
  "layers." +:+ str i +:+ "." +:+ suffix
  = ("layers." +:+ str i) +:+ "." +:+ suffix.
Proof. by rewrite !append_assoc. Qed.

(** X11. For a [PhiTensorNames] with [n_layer] L and a configuration whose
    [n_layer] is N, [all_weights] returns 1 + 11*N + 4 entries (N counted
    as zero if negative). Their names are pairwise distinct exactly when L
    is not one of the enumerated layers 0 .. N-1: the post-weights are named
    as if they sat in layer L, which is free when L is the layer count and
    collides with that layer's [ln] weights otherwise. *)
Theorem phi_all_weights (L N : Z) (config : PretrainedConfig) :
  int_attrs config !! "n_layer" = Some N ->
  exists ws,
    all_weights {| PhiTensorNames.n_layer := L |} config = Ok ws /\
    length ws = (1 + Z.to_nat N * 11 + 4)%nat /\
    (NoDup (name <$> ws) <-> ~ (0 <= L < N)).
Proof.
  intros HN.
  set (p := {| PhiTensorNames.n_layer := L |}).
  set (nm := fun (i : Z) (s : string) => ("layers." +:+ str i) +:+ "." +:+ s).
  assert (Hinj : forall i j s t, nm i s = nm j t -> i = j /\ s = t)
    by (intros i j s t; apply layer_name_inj).
  set (lsuf := ["ln.bias"; "ln.weight"; "mixer.Wqkv.bias"; "mixer.Wqkv.weight";
                "mixer.out_proj.bias"; "mixer.out_proj.weight";
                "mixer.rotary_emb.inv_freq"; "mlp.fc1.bias"; "mlp.fc1.weight";
                "mlp.fc2.bias"; "mlp.fc2.weight"]).
  set (psuf := ["linear.bias"; "linear.weight"; "ln.bias"; "ln.weight"]).
  set (ls := fun i : Z =>
               (fun suffix => weight_info (("layers." +:+ str i +:+ ".") +:+ suffix) false)
                 <$> lsuf).
  assert (Hall : all_weights p config
                 = Ok (pre_weights p ++ concat (ls <$> range N) ++ post_weights p)).
  { apply (all_weights_ok p config N ls).
    - unfold getattr. simpl. unfold PhiTensorNames.num_layers_config_key. by rewrite HN.
    - done. }
  eexists. split; [exact Hall|]. split.
  { rewrite !length_app, (length_concat_uniform _ 11).
    - unfold range. rewrite !length_fmap, length_seq. simpl. lia.
    - apply Forall_fmap, Forall_forall. by intros i _. }
  assert (Hnames : name <$> (pre_weights p ++ concat (ls <$> range N) ++ post_weights p)
                   = nm 0 "wte.weight"
                       :: concat ((fun i => nm i <$> lsuf) <$> range N)
                       ++ (nm L <$> psuf)).
  { rewrite !fmap_app, fmap_concat, <- list_fmap_compose.
    assert (Hlayers : ((fun l : list WeightInfo => name <$> l) ∘ ls) <$> range N
                      = (fun i => nm i <$> lsuf) <$> range N).
    { apply list_fmap_ext. intros _ i _. unfold compose, ls.
      rewrite <- list_fmap_compose. apply list_fmap_ext. intros _ s _.
      exact (phi_layer_name i s). }
    assert (Hpost : name <$> post_weights p = nm L <$> psuf).
    { change (post_weights p) with (PhiTensorNames.post_weights p).
      unfold PhiTensorNames.post_weights. rewrite <- list_fmap_compose.
      apply list_fmap_ext. intros _ s _. exact (phi_post_name L s). }
    rewrite Hlayers, Hpost. reflexivity. }
  rewrite Hnames. clear Hnames Hall.
  assert (Hl_nd : NoDup lsuf) by (apply (proj1 (bool_decide_eq_true _)); by vm_compute).
  assert (Hp_nd : NoDup psuf) by (apply (proj1 (bool_decide_eq_true _)); by vm_compute).
  assert (Hwte_l : "wte.weight" ∉ lsuf)
    by (apply (proj1 (bool_decide_eq_true _)); by vm_compute).
  assert (Hwte_p : "wte.weight" ∉ psuf)
    by (apply (proj1 (bool_decide_eq_true _)); by vm_compute).
  split.
  - intros [_ (_ & Hdisj & _)%NoDup_app]%NoDup_cons HL.
    apply (Hdisj (nm L "ln.bias")).
    + apply (elem_of_layered nm). exists L, "ln.bias".
      split; [by apply list_elem_of_In, range_member|].
      split; [|done]. unfold lsuf. apply list_elem_of_here.
    + apply list_elem_of_fmap. exists "ln.bias". split; [done|].
      unfold psuf. do 2 apply list_elem_of_further. apply list_elem_of_here.
  - intros HL. apply NoDup_cons. split.
    + intros [(i & s & _ & Hs & E)%(elem_of_layered nm)|(s & E & Hs)%list_elem_of_fmap]%elem_of_app;
        apply Hinj in E as [_ <-]; done.
    + apply NoDup_app. split; [|split].
      * apply (NoDup_layered nm Hinj); [done|apply range_NoDup].
      * intros x (i & s & Hi & _ & ->)%(elem_of_layered nm) (t & E & _)%list_elem_of_fmap.
        apply Hinj in E as [-> _]. apply HL.
        by apply range_bounds, list_elem_of_In.
      * apply NoDup_fmap_2_strong; [|done].
        intros s t _ _ E. by apply Hinj in E as [_ ?].
Qed.

Lemma phi_all_weights_witness :
  exists ws,
    all_weights {| PhiTensorNames.n_layer := 24 |} mixformer_config = Ok ws /\
    length ws = (1 + 24 * 11 + 4)%nat /\
    NoDup (name <$> ws).
Proof.
  destruct (phi_all_weights 24 24 mixformer_config eq_refl)
    as (ws & Hws & Hlen & Hnd).
  exists ws. split; [exact Hws|]. split; [exact Hlen|].
  apply Hnd. lia.
Defined.

(** ** Mixtral: distinct names *)

Lemma flat_map_concat {B C : Type} (f : B -> list C) (l : list B) :
  flat_map f l = concat (f <$> l).
Proof. induction l as [|b l IH]; [done|]. simpl. by rewrite IH. Qed.

Lemma names_of_made (f : string -> bool) (l : list string) :
  name <$> ((fun n => weight_info n (f n)) <$> l) = l.
Proof. rewrite <- list_fmap_compose. apply list_fmap_id. Qed.

Lemma mixtral_layer_names (E i : Z) :
  exists ws,
    layer_weights {| MixtralTensorNames.num_local_experts := E |} i = Ok (Some ws) /\
    name <$> ws
    = (fun s => ("model.layers." +:+ str i) +:+ "." +:+ s)
        <$> (concat ((fun e => (fun s => ("block_sparse_moe.experts." +:+ str e)
                                           +:+ "." +:+ s)
                                 <$> ["w1.weight"; "w2.weight"; "w3.weight"])
                       <$> range E)
               ++ ["block_sparse_moe.gate.weight"]).
Proof.
  eexists. split.
  { simpl. unfold MixtralTensorNames.layer_weights.
    rewrite mistral_prefix. simpl. reflexivity. }
  rewrite (names_of_made
             (fun n => str_in n (StaticTensorNames.embed_weight_names MISTRAL_INFO))).
  rewrite fmap_app, fmap_concat, <- list_fmap_compose, flat_map_concat.
  assert (Hexperts :
            MixtralTensorNames.expert_names ("model.layers." +:+ str i) <$> range E
            = ((fun l : list string =>
                  (fun s => ("model.layers." +:+ str i) +:+ "." +:+ s) <$> l)
                 ∘ (fun e => (fun s => ("block_sparse_moe.experts." +:+ str e)
                                         +:+ "." +:+ s)
                               <$> ["w1.weight"; "w2.weight"; "w3.weight"]))
                <$> range E).
  { apply list_fmap_ext. intros _ e _.
    unfold compose, MixtralTensorNames.expert_names.
    rewrite <- list_fmap_compose.
    change ["w1.weight"; "w2.weight"; "w3.weight"]
      with ((fun param => param +:+ ".weight") <$> ["w1"; "w2"; "w3"]).
    rewrite <- list_fmap_compose. apply list_fmap_ext. intros _ param _.
    unfold compose. by rewrite !append_assoc. }
  rewrite Hexperts. by rewrite append_assoc.
Qed.

(** X12. For the Mixtral descriptor with any expert count and a
    configuration with any layer count, the tensor names that [all_weights]
    returns are pairwise distinct: experts, their three matrices, the gate
    and the layers all keep their names apart, and apart from the pre- and
    post-weights. *)
Theorem mixtral_names_distinct (E N : Z) (config : PretrainedConfig) :
  int_attrs config !! "num_hidden_layers" = Some N ->
  exists ws,
    all_weights {| MixtralTensorNames.num_local_experts := E |} config = Ok ws /\
    NoDup (name <$> ws).
Proof.
  intros HN.
  set (m := {| MixtralTensorNames.num_local_experts := E |}).
  set (ls := fun i => match layer_weights m i with
                      | Ok (Some l) => l
                      | _ => []
                      end).
  assert (Hls : forall i, layer_weights m i = Ok (Some (ls i))).
  { intros i. destruct (mixtral_layer_names E i) as (ws & Hws & _).
    unfold ls, m. by rewrite Hws. }
  eexists. split.
  { apply (all_weights_ok m config N ls); [|done].
    unfold getattr. change (num_layers_config_key m) with "num_hidden_layers".
    by rewrite HN. }
  set (nm' := fun (e : Z) (s : string) =>
                ("block_sparse_moe.experts." +:+ str e) +:+ "." +:+ s).
  set (suffixes := concat ((fun e => nm' e <$> ["w1.weight"; "w2.weight"; "w3.weight"])
                             <$> range E)
                   ++ ["block_sparse_moe.gate.weight"]).
  assert (Hnames : ((fun l : list WeightInfo => name <$> l) ∘ ls) <$> range N
                   = (fun i => (fun s => ("model.layers." +:+ str i) +:+ "." +:+ s)
                                 <$> suffixes) <$> range N).
  { apply list_fmap_ext. intros _ i _. unfold compose.
    destruct (mixtral_layer_names E i) as (ws & Hws & Hn).
    rewrite Hls in Hws. injection Hws as <-. exact Hn. }
  rewrite !fmap_app, fmap_concat, <- list_fmap_compose, Hnames. clear Hnames.
  change (name <$> pre_weights m) with ["model.embed_tokens.weight"].
  change (name <$> post_weights m) with ["model.norm.weight"; "lm_head.weight"].
  assert (Hinj : forall e f s t, nm' e s = nm' f t -> e = f /\ s = t)
    by (intros e f s t; apply layer_name_inj).
  apply layout_names_distinct.
  - reflexivity.
  - apply (proj1 (bool_decide_eq_true _)). by vm_compute.
  - reflexivity.
  - unfold suffixes. apply NoDup_app. split; [|split].
    + apply (NoDup_layered nm' Hinj); [|apply range_NoDup].
      apply (proj1 (bool_decide_eq_true _)). by vm_compute.
    + intros x (e & s & _ & _ & ->)%(elem_of_layered nm') Hgate%list_elem_of_singleton.
      unfold nm' in Hgate. rewrite append_assoc in Hgate. discriminate Hgate.
    + apply NoDup_singleton.
Qed.

Lemma mixtral_names_distinct_witness :
  exists ws,
    all_weights {| MixtralTensorNames.num_local_experts := 8 |} (mixtral_config 8)
    = Ok ws /\
    NoDup (name <$> ws).
Proof. apply (mixtral_names_distinct 8 32 (mixtral_config 8)). reflexivity. Defined.
